(** * cryptik: expiring cache and one-time-password service

    A shallow embedding of [pkg/cache] (the in-memory expiring cache) and of
    the OTP service built on it, together with the properties of the two
    that the specification states.

    Conventions of the embedding.
    - A Go [int64] is a [Z] kept in range by [wrap64] after every arithmetic
      operation; a Go [string] is a [string] (a sequence of bytes, so
      [String.length] is Go's [len]).
    - The backing [map[string]CacheEntry] is a [gmap string CacheEntry].
    - [time.Now().Unix()] is an explicit argument [now : Z] of every
      operation that reads the clock.
    - A method with a pointer receiver takes the store and returns the new
      store next to its results; a panic is the [Panic] outcome. *)

From Stdlib Require Import ZArith String Ascii List Lia.
From stdpp Require Import gmap strings fin_maps.

Local Open Scope string_scope.
Local Open Scope Z_scope.

(** ** Values and errors *)

(** A value of Go's [any]: the nil interface, a string, or a value of some
    other dynamic type (identified by the name of the type). *)
Inductive any : Type :=
| AnyNil
| AnyString (s : string)
| AnyOther (dynamic_type : string).

(** The error values the two packages build. [Error] gives the message. *)
Inductive error : Type :=
| ErrInvalidOTP                       (* errors.New("invalid OTP provided") *)
| ErrKeyEmpty                         (* errors.New("key cannot be empty") *)
| ErrReader                           (* a failure of rand.Reader *)
| ErrRandomNumber (cause : error)     (* "failed to generate random number: %v" *)
| ErrStoreOTP (cause : error)         (* "failed to store OTP in cache: %v" *)
| ErrNotFound (key : string)          (* "OTP not found in cache for secret: %s" *)
| ErrMismatch (key : string).         (* "OTP does not match for secret: %s" *)

Fixpoint Error (e : error) : string :=
  match e with
  | ErrInvalidOTP => "invalid OTP provided"
  | ErrKeyEmpty => "key cannot be empty"
  | ErrReader => "unexpected EOF"
  | ErrRandomNumber c => "failed to generate random number: " +:+ Error c
  | ErrStoreOTP c => "failed to store OTP in cache: " +:+ Error c
  | ErrNotFound k => "OTP not found in cache for secret: " +:+ k
  | ErrMismatch k => "OTP does not match for secret: " +:+ k
  end.

(** The result of a call that may panic. *)
Inductive outcome (A : Type) : Type :=
| Ret (a : A)
| Panic (msg : string).
Arguments Ret {A} a.
Arguments Panic {A} msg.

(** ** Package cache *)

Record CacheEntry : Type := mkCacheEntry {
  Data : any;     (* the data stored in the cache *)
  Expiry : Z      (* Unix timestamp when this entry expires *)
}.

(** [func (c CacheEntry) IsExpired() bool]: [c.Expiry < time.Now().Unix()]. *)
Definition IsExpired (c : CacheEntry) (now : Z) : bool :=
  Expiry c <? now.

(** The interface [Cache]: what a store of type [S] has to offer. Every
    method receives the store and hands back the store it leaves behind, so
    that an implementation is free to write on any call. *)
Class Cache (S : Type) : Type := {
  Get : Z -> string -> S -> (any * bool) * S;
  Set_ : string -> any -> Z -> S -> option error * S;
  Delete : string -> S -> S;
  Exists : Z -> string -> S -> bool * S;
  Clear : S -> S;
  RemoveExpiredEntries : Z -> S -> S
}.

Module CacheInstance.

(** The field [data] of [CacheInstance]. *)
Abbreviation t := (gmap string CacheEntry).

(** The loop of [RemoveExpiredEntries], every entry of the map visited
    once in some order; [clock key] is the time [IsExpired] reads when the
    loop is at [key]. *)
Definition RemoveExpiredEntriesAt (clock : string -> Z) (c : t) : t :=
  map_fold
    (fun key entry data =>
       if IsExpired entry (clock key) then delete key data else data)
    c c.

Definition RemoveExpiredEntries (now : Z) (c : t) : t :=
  RemoveExpiredEntriesAt (fun _ => now) c.

Definition Set_ (key : string) (value : any) (expiration : Z) (c : t)
  : option error * t :=
  if decide (key = "") then (Some ErrKeyEmpty, c)
  else (None, <[key := {| Data := value; Expiry := expiration |}]> c).

Definition Get (now : Z) (key : string) (c : t) : (any * bool) * t :=
  match c !! key with
  | None => ((AnyNil, false), c)
  | Some entry =>
      if IsExpired entry now then ((AnyNil, false), c)
      else ((Data entry, true), c)
  end.

Definition Delete (key : string) (c : t) : t := delete key c.

Definition Exists (now : Z) (key : string) (c : t) : bool * t :=
  match c !! key with
  | None => (false, c)
  | Some _ =>
      match c !! key with
      | Some entry => (negb (IsExpired entry now), c)
      | None => (negb (IsExpired {| Data := AnyNil; Expiry := 0 |} now), c)
      end
  end.

Definition Clear (c : t) : t := ∅.

(** [make(map[string]CacheEntry)], the store [GetCache] starts from. *)
Definition empty : t := ∅.

End CacheInstance.

#[export] Instance CacheInstance_Cache : Cache CacheInstance.t := {
  Get := CacheInstance.Get;
  Set_ := CacheInstance.Set_;
  Delete := CacheInstance.Delete;
  Exists := CacheInstance.Exists;
  Clear := CacheInstance.Clear;
  RemoveExpiredEntries := CacheInstance.RemoveExpiredEntries
}.

(** ** Package gootp: the OTP service *)

(** Computations of the service over a store [S]: they read and write the
    store behind the [Cache] interface and may panic. *)
Definition M (S A : Type) : Type := S -> outcome (A * S).

#[export] Instance M_ret (S : Type) : MRet (M S) :=
  fun A a s => Ret (a, s).

#[export] Instance M_bind (S : Type) : MBind (M S) :=
  fun A B f m s =>
    match m s with
    | Ret (a, s') => f a s'
    | Panic msg => Panic msg
    end.

(** A call of a method of the cache. *)
Definition call {S A : Type} (f : S -> A * S) : M S A :=
  fun s => Ret (f s).

Definition call_ {S : Type} (f : S -> S) : M S unit :=
  fun s => Ret (tt, f s).

Definition panic {S A : Type} (msg : string) : M S A :=
  fun _ => Panic msg.

(** *** Machine integers and formatting *)

(** The value an [int64] holds after an operation whose exact result is
    [z]: two's complement wrap-around. *)
Definition wrap64 (z : Z) : Z := (z + 2 ^ 63) mod 2 ^ 64 - 2 ^ 63.

(** The byte of a decimal digit, ['0' + d]. *)
Definition digit (d : Z) : ascii := ascii_of_nat (48 + Z.to_nat d).

(** The digit loop of [fmt]'s integer formatting in base 10,
    [for u >= 10 { buf[i] = '0' + u%10; u /= 10 }; buf[i] = '0' + u],
    writing from the right; [fuel] bounds the number of turns (19 turns are
    all a 64-bit magnitude can take). *)
Fixpoint fmtDigits (fuel : nat) (u : Z) (buf : string) : string :=
  match fuel with
  | O => String (digit u) buf
  | S fuel' =>
      if u <? 10 then String (digit u) buf
      else fmtDigits fuel' (u / 10) (String (digit (u mod 10)) buf)
  end.

Definition repeat_byte (a : ascii) (n : Z) : string :=
  string_of_list_ascii (repeat a (Z.to_nat n)).

Definition len (s : string) : Z := Z.of_nat (String.length s).

(** [fmt]'s bound on a width given through [*]. *)
Definition tooLarge (x : Z) : bool := (1000000 <? x) || (x <? -1000000).

(** [fmt.Sprintf("%0*d", wid, v)] for an [int64] [v]: the digits of the
    magnitude, zeros in front of them up to the width (one less under a
    sign), then the sign. A negative width means left-justified in the
    absolute width, padded with spaces on the right and never with zeros;
    a width beyond [tooLarge] is reported and dropped. *)
Definition Sprintf_0star_d (wid : Z) (v : Z) : string :=
  let negative := v <? 0 in
  let digs := fmtDigits 19 (Z.abs v) "" in
  let sign := if negative then "-" else "" in
  if tooLarge wid then "%!(BADWIDTH)" +:+ sign +:+ digs
  else if wid <? 0 then
    (sign +:+ digs) +:+ repeat_byte " " (- wid - len (sign +:+ digs))
  else
    let prec := if negative then wid - 1 else wid in
    sign +:+ repeat_byte "0" (prec - len digs) +:+ digs.

(** [rand.Int(rand.Reader, max)]: panics when [max <= 0]; otherwise fails
    when the reader fails ([reader = None]) and else returns the number in
    [[0, max)] that the bytes read ([reader = Some x]) stand for. *)
Definition rand_Int (reader : option Z) (max : Z) : outcome (Z + error) :=
  if max <=? 0 then Panic "crypto/rand: argument to Int is <= 0"
  else match reader with
       | None => Ret (inr ErrReader)
       | Some x => Ret (inl (x mod max))
       end.

(** *** The service *)

(** The struct [otpServiceInstance]. Its field [CacheService] is the
    reference to the store that the computations in [M] thread. *)
Record otpServiceInstance : Type := mkService {
  Length : Z
}.

Record GoOTPServiceConfig : Type := mkConfig {
  conf_Length : Z
}.

(** [min] after the loop [for i := 1; i < o.Length; i++ { min *= 10 }]. *)
Definition min_of_Length (length : Z) : Z :=
  Nat.iter (Z.to_nat (length - 1)) (fun min => wrap64 (min * 10)) 1.

Section Service.
Context {S : Type} `{Cache S}.

(** [func (o otpServiceInstance) GenerateOTP(key string) (string, error)].
    [reader] is what [rand.Reader] yields to this call and [now] the time
    read for the expiry; the OTP is formatted once for the cache and once
    more for the caller. *)
Definition GenerateOTP (o : otpServiceInstance) (reader : option Z) (now : Z)
    (key : string) : M S (string * option error) :=
  let min := min_of_Length (Length o) in
  let max := wrap64 (wrap64 (min * 10) - 1) in
  let diff := wrap64 (wrap64 (max - min) + 1) in
  fun s =>
    match rand_Int reader diff with
    | Panic msg => Panic msg
    | Ret (inr err) => Ret (("", Some (ErrRandomNumber err)), s)
    | Ret (inl n) =>
        let result := wrap64 (wrap64 n + min) in
        let otp := Sprintf_0star_d (Length o) result in
        (err ← call (Set_ key (AnyString otp) (now + 600));
         match err with
         | Some err => mret ("", Some (ErrStoreOTP err))
         | None => mret (Sprintf_0star_d (Length o) result, None)
         end) s
    end.

(** [func (o otpServiceInstance) ValidateOTP(key, otp string) (bool, error)].
    The comparison with nil comes first, so the type assertion is reached
    only for a value that is not nil. *)
Definition ValidateOTP (o : otpServiceInstance) (now : Z) (key otp : string)
    : M S (bool * option error) :=
  if String.eqb otp "" || negb (len otp =? Length o) then
    mret (false, Some ErrInvalidOTP)
  else
    '(cachedOTP, exists_) ← call (Get now key);
    if negb exists_ then mret (false, Some (ErrNotFound key))
    else
      match cachedOTP with
      | AnyNil => mret (false, Some (ErrMismatch key))
      | AnyOther dynamic_type =>
          panic ("interface conversion: interface {} is " +:+ dynamic_type
                 +:+ ", not string")
      | AnyString cached =>
          if negb (String.eqb cached otp) then
            mret (false, Some (ErrMismatch key))
          else
            _ ← call_ (Delete key);
            mret (true, None)
      end.

End Service.

(** [NewService]: a length below 1 becomes the default of 6. The cache of
    the configuration (the singleton when none is given) is the store the
    service is run on. *)
Definition NewService (conf : GoOTPServiceConfig)
    : otpServiceInstance * option error :=
  let length := if conf_Length conf <? 1 then 6 else conf_Length conf in
  ({| Length := length |}, None).

(** ** Vocabulary of the statements *)

(** A blank key: nothing but white space (the empty key included). *)
Definition is_space (a : ascii) : bool :=
  let n := nat_of_ascii a in
  ((n =? 32) || (n =? 9) || (n =? 10) || (n =? 13))%nat.

Definition is_blank (s : string) : bool :=
  forallb is_space (list_ascii_of_string s).

(** A string of decimal digits, and the number it writes. *)
Definition is_digit (a : ascii) : bool :=
  let n := nat_of_ascii a in
  ((48 <=? n) && (n <=? 57))%nat.

Definition digits_only (s : string) : bool :=
  forallb is_digit (list_ascii_of_string s).

Fixpoint atoi_from (acc : Z) (s : string) : Z :=
  match s with
  | EmptyString => acc
  | String a s' => atoi_from (acc * 10 + (Z.of_nat (nat_of_ascii a) - 48)) s'
  end.

Definition atoi (s : string) : Z := atoi_from 0 s.

(** A number of exactly [k + 1] digits. *)
Definition has_digits (k : nat) (u : Z) : Prop :=
  0 <= u < 10 ^ (Z.of_nat k + 1) /\ (k <> O -> 10 ^ Z.of_nat k <= u).

(** The width of the range [GenerateOTP] draws from ([diff]), and the
    number it formats ([result]) when the reader yields [x]. *)
Definition draw_width (length : Z) : Z :=
  let min := min_of_Length length in
  let max := wrap64 (wrap64 (min * 10) - 1) in
  wrap64 (wrap64 (max - min) + 1).

Definition drawn_number (length x : Z) : Z :=
  wrap64 (wrap64 (x mod draw_width length) + min_of_Length length).

(** Every value of the store is a string: the state of a cache that only
    [GenerateOTP] writes to. *)
Definition all_strings (c : CacheInstance.t) : Prop :=
  forall key entry, c !! key = Some entry -> exists s, Data entry = AnyString s.

(** A cache that keeps the list of the calls made on it, latest first, next
    to the store of another cache that serves them. *)
Record Recorded (S : Type) : Type := mkRecorded {
  served_by : S;
  calls : list string
}.
Arguments mkRecorded {S} served_by calls.
Arguments served_by {S} r.
Arguments calls {S} r.

#[export] Instance Recorded_Cache (S : Type) `{Cache S} : Cache (Recorded S) := {
  Get now key r :=
    let '(res, s) := Get now key (served_by r) in
    (res, mkRecorded s ("Get" :: calls r));
  Set_ key value expiration r :=
    let '(res, s) := Set_ key value expiration (served_by r) in
    (res, mkRecorded s ("Set" :: calls r));
  Delete key r :=
    mkRecorded (Delete key (served_by r)) ("Delete" :: calls r);
  Exists now key r :=
    let '(res, s) := Exists now key (served_by r) in
    (res, mkRecorded s ("Exists" :: calls r));
  Clear r := mkRecorded (Clear (served_by r)) ("Clear" :: calls r);
  RemoveExpiredEntries now r :=
    mkRecorded (RemoveExpiredEntries now (served_by r))
               ("RemoveExpiredEntries" :: calls r)
}.

(** ** Sequences of calls *)

(** A call that writes to the cache, and a run of such calls one after the
    other on the store, as the callers of the package and the cleanup
    goroutine of [GetCache] make them. *)
Inductive cache_op : Type :=
| OpSet (key : string) (value : any) (expiration : Z)
| OpDelete (key : string)
| OpClear
| OpRemoveExpiredEntries (now : Z).

Definition run_op (op : cache_op) (c : gmap string CacheEntry)
    : gmap string CacheEntry :=
  match op with
  | OpSet key value expiration =>
      (CacheInstance.Set_ key value expiration c).2
  | OpDelete key => CacheInstance.Delete key c
  | OpClear => CacheInstance.Clear c
  | OpRemoveExpiredEntries now => CacheInstance.RemoveExpiredEntries now c
  end.

Definition run_ops (ops : list cache_op) (c : gmap string CacheEntry)
    : gmap string CacheEntry :=
  fold_left (fun c op => run_op op c) ops c.

(** A call on the OTP service or a turn of the cleanup goroutine, and a run
    of them on the in-memory cache; a panic ends the run. *)
Inductive service_call : Type :=
| CallGenerateOTP (reader : option Z) (now : Z) (key : string)
| CallValidateOTP (now : Z) (key otp : string)
| CallRemoveExpiredEntries (now : Z).

Definition run_call (o : otpServiceInstance) (call : service_call)
    (c : gmap string CacheEntry) : outcome (gmap string CacheEntry) :=
  match call with
  | CallGenerateOTP reader now key =>
      match GenerateOTP o reader now key c with
      | Ret (_, c') => Ret c'
      | Panic msg => Panic msg
      end
  | CallValidateOTP now key otp =>
      match ValidateOTP o now key otp c with
      | Ret (_, c') => Ret c'
      | Panic msg => Panic msg
      end
  | CallRemoveExpiredEntries now =>
      Ret (CacheInstance.RemoveExpiredEntries now c)
  end.

Fixpoint run_calls (o : otpServiceInstance) (calls : list service_call)
    (c : gmap string CacheEntry) : outcome (gmap string CacheEntry) :=
  match calls with
  | [] => Ret c
  | call :: rest =>
      match run_call o call c with
      | Ret c' => run_calls o rest c'
      | Panic msg => Panic msg
      end
  end.

(** A store as the service leaves it: no entry under the empty key, and
    every value a string of [length] decimal digits. *)
Definition otp_store (length : Z) (c : gmap string CacheEntry) : Prop :=
  forall key entry, c !! key = Some entry ->
    key <> "" /\
    exists s, Data entry = AnyString s /\ len s = length /\
              digits_only s = true.

(** * Properties of the cache *)

Section CacheFacts.
Implicit Types (c : gmap string CacheEntry) (key : string) (now : Z).

Lemma IsExpired_true (entry : CacheEntry) now :
  IsExpired entry now = true <-> Expiry entry < now.
Proof. unfold IsExpired. apply Z.ltb_lt. Qed.

Lemma IsExpired_false (entry : CacheEntry) now :
  IsExpired entry now = false <-> now <= Expiry entry.
Proof. unfold IsExpired. rewrite Z.ltb_ge. reflexivity. Qed.

Lemma Get_store now key c : (CacheInstance.Get now key c).2 = c.
Proof.
  unfold CacheInstance.Get.
  destruct (c !! key) as [entry|]; [destruct (IsExpired entry now)|]; done.
Qed.

Lemma Exists_store now key c : (CacheInstance.Exists now key c).2 = c.
Proof. unfold CacheInstance.Exists. destruct (c !! key); done. Qed.

Lemma Get_lookup now key c :
  (CacheInstance.Get now key c).1 =
  match c !! key with
  | Some entry =>
      if IsExpired entry now then (AnyNil, false) else (Data entry, true)
  | None => (AnyNil, false)
  end.
Proof.
  unfold CacheInstance.Get.
  destruct (c !! key) as [entry|]; [destruct (IsExpired entry now)|]; done.
Qed.

Lemma Exists_lookup now key c :
  (CacheInstance.Exists now key c).1 =
  match c !! key with
  | Some entry => negb (IsExpired entry now)
  | None => false
  end.
Proof. unfold CacheInstance.Exists. destruct (c !! key); done. Qed.

(** What the sweep leaves under each key, whatever the order of the visit:
    the entry that was there, unless it had expired at the time the loop
    looked at it. *)
Lemma RemoveExpiredEntriesAt_lookup (clock : string -> Z) c key :
  CacheInstance.RemoveExpiredEntriesAt clock c !! key =
  match c !! key with
  | Some entry => if IsExpired entry (clock key) then None else Some entry
  | None => None
  end.
Proof.
  unfold CacheInstance.RemoveExpiredEntriesAt.
  set (f := fun (k : string) (e : CacheEntry) (data : gmap string CacheEntry) =>
              if IsExpired e (clock k) then delete k data else data).
  enough (Hgen : forall init m : gmap string CacheEntry,
             map_fold f init m !! key =
             match m !! key with
             | Some entry =>
                 if IsExpired entry (clock key) then None else init !! key
             | None => init !! key
             end).
  { rewrite Hgen. destruct (c !! key) as [entry|] eqn:Hk; [|done].
    destruct (IsExpired entry (clock key)); done. }
  intros init m.
  apply (map_fold_weak_ind
           (fun (r m' : gmap string CacheEntry) =>
              r !! key =
              match m' !! key with
              | Some entry =>
                  if IsExpired entry (clock key) then None else init !! key
              | None => init !! key
              end)).
  - by rewrite lookup_empty.
  - intros i x m' r Hfresh IH. unfold f.
    destruct (decide (i = key)) as [->|Hne].
    + rewrite lookup_insert_eq.
      destruct (IsExpired x (clock key)).
      * apply lookup_delete_eq.
      * by rewrite IH, Hfresh.
    + rewrite lookup_insert_ne by done.
      destruct (IsExpired x (clock i)); [rewrite lookup_delete_ne by done|];
        apply IH.
Qed.

Lemma RemoveExpiredEntries_lookup now c key :
  CacheInstance.RemoveExpiredEntries now c !! key =
  match c !! key with
  | Some entry => if IsExpired entry now then None else Some entry
  | None => None
  end.
Proof. apply RemoveExpiredEntriesAt_lookup. Qed.

Lemma Set_lookup key (value : any) (expiration : Z) c :
  key <> "" ->
  CacheInstance.Set_ key value expiration c =
  (None, <[key := {| Data := value; Expiry := expiration |}]> c).
Proof. intros Hkey. unfold CacheInstance.Set_. by destruct (decide (key = "")). Qed.

End CacheFacts.

(** ** Expiry at read time *)

(** C2, as amended. For a key present in the cache, [Get] and [Exists]
    report it absent exactly when the expiry instant of its entry is
    strictly before the current time; at the expiry instant itself, and
    before it, [Get] returns the value and [Exists] returns true. Neither
    call changes the store. *)
Theorem Get_Exists_expiry_strict (now : Z) (key : string)
    (c : gmap string CacheEntry) (entry : CacheEntry) :
  c !! key = Some entry ->
  (Expiry entry < now ->
   CacheInstance.Get now key c = ((AnyNil, false), c) /\
   CacheInstance.Exists now key c = (false, c)) /\
  (now <= Expiry entry ->
   CacheInstance.Get now key c = ((Data entry, true), c) /\
   CacheInstance.Exists now key c = (true, c)).
Proof.
  intros Hk. unfold CacheInstance.Get, CacheInstance.Exists. rewrite Hk.
  split; intros Ht.
  - apply IsExpired_true in Ht. by rewrite Ht.
  - apply IsExpired_false in Ht. by rewrite Ht.
Qed.

Lemma Get_Exists_expiry_strict_witness :
  let entry := {| Data := AnyString "482913"; Expiry := 1700000000 |} in
  let c : gmap string CacheEntry := <["alice" := entry]> ∅ in
  (CacheInstance.Get 1700000001 "alice" c = ((AnyNil, false), c) /\
   CacheInstance.Exists 1700000001 "alice" c = (false, c)) /\
  (CacheInstance.Get 1699999999 "alice" c = ((AnyString "482913", true), c) /\
   CacheInstance.Exists 1699999999 "alice" c = (true, c)).
Proof.
  intros entry c. split.
  - apply (Get_Exists_expiry_strict 1700000001 "alice" c entry); [reflexivity|].
    simpl. lia.
  - apply (Get_Exists_expiry_strict 1699999999 "alice" c entry); [reflexivity|].
    simpl. lia.
Defined.

(** C2 as stated fails where the expiry instant equals the current time:
    the entry is present, its expiry is at (so "at or before") the current
    time, and both [Get] and [Exists] still see it. *)
Lemma Get_Exists_see_entry_at_expiry_instant :
  let entry := {| Data := AnyString "482913"; Expiry := 1700000000 |} in
  let c : gmap string CacheEntry := <["alice" := entry]> ∅ in
  c !! "alice" = Some entry /\
  Expiry entry <= 1700000000 /\
  (CacheInstance.Get 1700000000 "alice" c).1 = (AnyString "482913", true) /\
  (CacheInstance.Exists 1700000000 "alice" c).1 = true.
Proof. vm_compute. repeat split; intros; discriminate. Qed.

(** ** The sweep *)

(** C3, as amended. [RemoveExpiredEntries] removes from the backing map
    every entry whose expiry instant is strictly before the time of the
    scan and leaves every other entry, those expiring at that very instant
    included, as it was; it adds nothing. An entry set with expiry one
    second before the scan is removed by it. *)
Theorem RemoveExpiredEntries_removes_strictly_expired (now : Z)
    (c : gmap string CacheEntry) (key : string) :
  (forall entry, c !! key = Some entry -> Expiry entry < now ->
     CacheInstance.RemoveExpiredEntries now c !! key = None) /\
  (forall entry, c !! key = Some entry -> now <= Expiry entry ->
     CacheInstance.RemoveExpiredEntries now c !! key = Some entry) /\
  (c !! key = None ->
     CacheInstance.RemoveExpiredEntries now c !! key = None) /\
  (forall value, key <> "" ->
     CacheInstance.RemoveExpiredEntries now
       (CacheInstance.Set_ key value (now - 1) c).2 !! key = None).
Proof.
  repeat split.
  - intros entry Hk Ht. rewrite RemoveExpiredEntries_lookup, Hk.
    apply IsExpired_true in Ht. by rewrite Ht.
  - intros entry Hk Ht. rewrite RemoveExpiredEntries_lookup, Hk.
    apply IsExpired_false in Ht. by rewrite Ht.
  - intros Hk. by rewrite RemoveExpiredEntries_lookup, Hk.
  - intros value Hkey. rewrite Set_lookup by done. simpl.
    rewrite RemoveExpiredEntries_lookup, lookup_insert_eq.
    assert (Ht : IsExpired {| Data := value; Expiry := now - 1 |} now = true)
      by (apply IsExpired_true; simpl; lia).
    by rewrite Ht.
Qed.

(** C3 as stated fails for an entry whose expiry instant equals the time of
    the scan: it is "at or before" the current time and the sweep keeps
    it. *)
Lemma RemoveExpiredEntries_keeps_entry_at_expiry_instant :
  let entry := {| Data := AnyString "482913"; Expiry := 1700000000 |} in
  let c : gmap string CacheEntry := <["alice" := entry]> ∅ in
  c !! "alice" = Some entry /\
  Expiry entry <= 1700000000 /\
  CacheInstance.RemoveExpiredEntries 1700000000 c !! "alice" = Some entry.
Proof. vm_compute. repeat split; intros; discriminate. Qed.

(** ** Writing an entry *)

(** C7, as amended. [Set] fails, with the empty-key error and the store
    unchanged, if and only if the key is the empty string. Every other key,
    a key of white space only included, is accepted, and the entry under it
    becomes the new value and expiry whatever was there before; the other
    keys keep their entries. *)
Theorem Set_fails_iff_key_empty (key : string) (value : any)
    (expiration : Z) (c : gmap string CacheEntry) :
  ((CacheInstance.Set_ key value expiration c).1 = Some ErrKeyEmpty <->
   key = "") /\
  (key = "" ->
   CacheInstance.Set_ key value expiration c = (Some ErrKeyEmpty, c)) /\
  (key <> "" ->
   (CacheInstance.Set_ key value expiration c).1 = None /\
   (CacheInstance.Set_ key value expiration c).2 !! key =
     Some {| Data := value; Expiry := expiration |} /\
   forall other, other <> key ->
     (CacheInstance.Set_ key value expiration c).2 !! other = c !! other).
Proof.
  unfold CacheInstance.Set_.
  destruct (decide (key = "")) as [Hk|Hk]; simpl.
  - repeat split; try done.
  - repeat split; try done.
    + apply lookup_insert_eq.
    + intros other Hother. by apply lookup_insert_ne.
Qed.

(** C7 as stated fails for a blank key that is not empty: a single space is
    white space only, and [Set] stores the entry under it. *)
Lemma Set_accepts_blank_key :
  is_blank " " = true /\
  CacheInstance.Set_ " " (AnyString "482913") 1700000600 ∅ =
    (None, <[" " := {| Data := AnyString "482913"; Expiry := 1700000600 |}]> ∅).
Proof. split; reflexivity. Qed.

(** ** Reads leave the store alone *)

(** C8, as amended. [Get] and [Exists] never change the store, also when
    the entry they look at has expired, and any number of them in a row
    leaves it as it was. Two reads of a key with no write between them
    return the same result when the clock readings of the two calls are on
    the same side of the expiry of the entry (equal readings, for one). *)
Theorem Get_Exists_read_only (now now' : Z) (key : string)
    (c : gmap string CacheEntry) :
  (forall entry, c !! key = Some entry ->
     (Expiry entry < now <-> Expiry entry < now')) ->
  (CacheInstance.Get now key c).2 = c /\
  (CacheInstance.Exists now key c).2 = c /\
  (forall n : nat,
     Nat.iter n (fun s => (CacheInstance.Exists now key
                             (CacheInstance.Get now key s).2).2) c = c) /\
  (CacheInstance.Get now' key (CacheInstance.Get now key c).2).1 =
    (CacheInstance.Get now key c).1 /\
  (CacheInstance.Exists now' key (CacheInstance.Exists now key c).2).1 =
    (CacheInstance.Exists now key c).1.
Proof.
  intros Hside.
  assert (Hexp : forall entry, c !! key = Some entry ->
                   IsExpired entry now' = IsExpired entry now).
  { intros entry Hk. specialize (Hside entry Hk).
    destruct (IsExpired entry now) eqn:E.
    - apply IsExpired_true. apply Hside. by apply IsExpired_true.
    - apply IsExpired_false. apply IsExpired_false in E. lia. }
  split; [apply Get_store|]. split; [apply Exists_store|]. split.
  - induction n as [|n IH]; simpl; [done|].
    by rewrite IH, Get_store, Exists_store.
  - rewrite Get_store, Exists_store, !Get_lookup, !Exists_lookup.
    destruct (c !! key) as [entry|] eqn:Hk; [|done].
    by rewrite (Hexp entry).
Qed.

Lemma Get_Exists_read_only_witness :
  let entry := {| Data := AnyString "482913"; Expiry := 1700000000 |} in
  let c : gmap string CacheEntry := <["alice" := entry]> ∅ in
  (CacheInstance.Get 1700000005 "alice" c).2 = c /\
  (CacheInstance.Exists 1700000005 "alice" c).2 = c /\
  (forall n : nat,
     Nat.iter n (fun s => (CacheInstance.Exists 1700000005 "alice"
                             (CacheInstance.Get 1700000005 "alice" s).2).2) c
     = c) /\
  (CacheInstance.Get 1700000007 "alice"
     (CacheInstance.Get 1700000005 "alice" c).2).1 =
    (CacheInstance.Get 1700000005 "alice" c).1 /\
  (CacheInstance.Exists 1700000007 "alice"
     (CacheInstance.Exists 1700000005 "alice" c).2).1 =
    (CacheInstance.Exists 1700000005 "alice" c).1.
Proof.
  intros entry c.
  apply (Get_Exists_read_only 1700000005 1700000007 "alice" c).
  intros e He.
  unfold c in He. rewrite lookup_insert_eq in He.
  injection He as <-. simpl. lia.
Defined.

(** C8 as stated fails when the entry expires between two reads: with no
    write in between (the first read returns the store as it found it),
    the first [Get] finds the value and the second does not, and likewise
    for [Exists]. *)
Lemma Get_Exists_differ_across_expiry :
  let entry := {| Data := AnyString "482913"; Expiry := 1700000000 |} in
  let c : gmap string CacheEntry := <["alice" := entry]> ∅ in
  CacheInstance.Get 1700000000 "alice" c = ((AnyString "482913", true), c) /\
  CacheInstance.Get 1700000001 "alice"
    (CacheInstance.Get 1700000000 "alice" c).2 = ((AnyNil, false), c) /\
  CacheInstance.Exists 1700000000 "alice" c = (true, c) /\
  CacheInstance.Exists 1700000001 "alice"
    (CacheInstance.Exists 1700000000 "alice" c).2 = (false, c).
Proof. repeat split. Qed.

(** * Properties of the service *)

(** ** Integers and their decimal form *)

Lemma int64_max : 2 ^ 63 = 9223372036854775808.
Proof. reflexivity. Qed.

(** Closes a goal that bounds a value within the range of an [int64]. *)
Ltac in_int64 := rewrite int64_max; lia.

Section Numbers.

Lemma wrap64_small (z : Z) : - 2 ^ 63 <= z < 2 ^ 63 -> wrap64 z = z.
Proof.
  intros Hz. unfold wrap64.
  rewrite Z.mod_small by (change (2 ^ 64) with (2 ^ 63 + 2 ^ 63); lia).
  lia.
Qed.

Lemma pow10_pos (k : Z) : 0 <= k -> 0 < 10 ^ k.
Proof. intros Hk. apply Z.pow_pos_nonneg; lia. Qed.

Lemma pow10_le_18 (k : Z) : 0 <= k <= 18 -> 10 ^ k <= 10 ^ 18.
Proof. intros Hk. apply Z.pow_le_mono_r; lia. Qed.

Lemma pow10_succ (k : Z) : 0 <= k -> 10 ^ (k + 1) = 10 ^ k * 10.
Proof. intros Hk. rewrite Z.pow_add_r by lia. reflexivity. Qed.

Lemma pow10_18 : 10 ^ 18 = 1000000000000000000.
Proof. reflexivity. Qed.

(** The loop multiplies without overflow up to 18 turns. *)
Lemma min_iter_pow (n : nat) :
  (n <= 18)%nat ->
  Nat.iter n (fun min => wrap64 (min * 10)) 1 = 10 ^ Z.of_nat n.
Proof.
  induction n as [|n IH]; intros Hn; [reflexivity|].
  simpl Nat.iter. rewrite IH by lia.
  rewrite Nat2Z.inj_succ, <- Z.add_1_r, pow10_succ by lia.
  apply wrap64_small.
  pose proof (pow10_pos (Z.of_nat n) ltac:(lia)).
  pose proof (pow10_le_18 (Z.of_nat n + 1) ltac:(lia)) as Hle.
  rewrite pow10_succ in Hle by lia.
  rewrite int64_max. rewrite pow10_18 in Hle. lia.
Qed.

Lemma min_of_Length_pow (length : Z) :
  1 <= length <= 19 -> min_of_Length length = 10 ^ (length - 1).
Proof.
  intros Hl. unfold min_of_Length.
  rewrite min_iter_pow by lia. f_equal. lia.
Qed.

Lemma nat_of_digit (d : Z) :
  0 <= d < 10 -> Z.of_nat (nat_of_ascii (digit d)) - 48 = d.
Proof.
  intros Hd. unfold digit. rewrite nat_ascii_embedding by lia. lia.
Qed.

Lemma is_digit_digit (d : Z) : 0 <= d < 10 -> is_digit (digit d) = true.
Proof.
  intros Hd. unfold is_digit, digit. rewrite nat_ascii_embedding by lia.
  apply andb_true_intro. split; apply Nat.leb_le; lia.
Qed.

Lemma has_digits_div (k : nat) (u : Z) :
  has_digits (S k) u -> 10 <= u /\ has_digits k (u / 10).
Proof.
  intros [[Hlo Hhi] Hmin]. specialize (Hmin ltac:(lia)).
  rewrite Nat2Z.inj_succ, <- Z.add_1_r in Hhi, Hmin.
  rewrite pow10_succ in Hhi, Hmin by lia.
  pose proof (pow10_pos (Z.of_nat k) ltac:(lia)) as Hpos.
  split; [lia|]. repeat split.
  - apply Z.div_pos; lia.
  - apply Z.div_lt_upper_bound; lia.
  - intros _. apply Z.div_le_lower_bound; lia.
Qed.

Lemma has_digits_0 (u : Z) : has_digits 0 u -> 0 <= u < 10.
Proof. intros [H _]. simpl in H. lia. Qed.

Lemma fmtDigits_length (k : nat) :
  forall (fuel : nat) (u : Z) (buf : string),
    has_digits k u -> (k <= fuel)%nat ->
    String.length (fmtDigits fuel u buf) = (S k + String.length buf)%nat.
Proof.
  induction k as [|k IH]; intros fuel u buf Hu Hfuel.
  - apply has_digits_0 in Hu.
    destruct fuel; simpl; [reflexivity|].
    destruct (Z.ltb_spec u 10); [reflexivity | lia].
  - destruct fuel as [|fuel]; [lia|].
    apply has_digits_div in Hu as [Hten Hdiv]. simpl.
    destruct (Z.ltb_spec u 10); [lia|].
    rewrite (IH fuel (u / 10) _ Hdiv) by lia. simpl. lia.
Qed.

Lemma digits_only_String (a : ascii) (s : string) :
  digits_only (String a s) = is_digit a && digits_only s.
Proof. reflexivity. Qed.

Lemma fmtDigits_digits_only (k : nat) :
  forall (fuel : nat) (u : Z) (buf : string),
    has_digits k u -> (k <= fuel)%nat ->
    digits_only buf = true ->
    digits_only (fmtDigits fuel u buf) = true.
Proof.
  induction k as [|k IH]; intros fuel u buf Hu Hfuel Hbuf.
  - apply has_digits_0 in Hu.
    assert (Hone : digits_only (String (digit u) buf) = true)
      by (rewrite digits_only_String, is_digit_digit by lia; exact Hbuf).
    destruct fuel; cbn [fmtDigits]; [exact Hone|].
    destruct (Z.ltb_spec u 10); [exact Hone | lia].
  - destruct fuel as [|fuel]; [lia|].
    apply has_digits_div in Hu as [Hten Hdiv]. cbn [fmtDigits].
    destruct (Z.ltb_spec u 10); [lia|].
    apply (IH fuel (u / 10) _ Hdiv); [lia|].
    rewrite digits_only_String, is_digit_digit; [exact Hbuf|].
    apply Z.mod_pos_bound. lia.
Qed.

Lemma atoi_from_String (acc : Z) (a : ascii) (s : string) :
  atoi_from acc (String a s) =
  atoi_from (acc * 10 + (Z.of_nat (nat_of_ascii a) - 48)) s.
Proof. reflexivity. Qed.

Lemma fmtDigits_atoi (k : nat) :
  forall (fuel : nat) (u acc : Z) (buf : string),
    has_digits k u -> (k <= fuel)%nat ->
    atoi_from acc (fmtDigits fuel u buf) =
    atoi_from (acc * 10 ^ (Z.of_nat k + 1) + u) buf.
Proof.
  induction k as [|k IH]; intros fuel u acc buf Hu Hfuel.
  - apply has_digits_0 in Hu.
    assert (Hone : atoi_from acc (String (digit u) buf) =
                   atoi_from (acc * 10 ^ (Z.of_nat 0 + 1) + u) buf)
      by (rewrite atoi_from_String, nat_of_digit by lia; reflexivity).
    destruct fuel; cbn [fmtDigits]; [exact Hone|].
    destruct (Z.ltb_spec u 10); [exact Hone | lia].
  - destruct fuel as [|fuel]; [lia|].
    apply has_digits_div in Hu as [Hten Hdiv]. cbn [fmtDigits].
    destruct (Z.ltb_spec u 10); [lia|].
    rewrite (IH fuel (u / 10) acc _ Hdiv) by lia.
    rewrite atoi_from_String.
    rewrite nat_of_digit by (apply Z.mod_pos_bound; lia).
    f_equal.
    rewrite Nat2Z.inj_succ, <- Z.add_1_r.
    rewrite (pow10_succ (Z.of_nat k + 1)) by lia.
    pose proof (Z.div_mod u 10 ltac:(lia)). lia.
Qed.

End Numbers.

Section Formatting.

Lemma has_digits_of_range (length v : Z) :
  1 <= length -> 10 ^ (length - 1) <= v < 10 ^ length ->
  has_digits (Z.to_nat (length - 1)) v.
Proof.
  intros Hl Hv. unfold has_digits.
  rewrite Z2Nat.id by lia.
  replace (length - 1 + 1) with length by lia.
  pose proof (pow10_pos (length - 1) ltac:(lia)).
  split; [lia|]. intros _. lia.
Qed.

(** A number of exactly [length] digits is written as it is: no padding
    and no sign. *)
Lemma Sprintf_in_range (length v : Z) :
  1 <= length <= 19 -> 10 ^ (length - 1) <= v < 10 ^ length ->
  Sprintf_0star_d length v = fmtDigits 19 v "" /\
  len (Sprintf_0star_d length v) = length /\
  digits_only (Sprintf_0star_d length v) = true /\
  atoi (Sprintf_0star_d length v) = v.
Proof.
  intros Hl Hv.
  pose proof (has_digits_of_range length v ltac:(lia) Hv) as Hd.
  pose proof (pow10_pos (length - 1) ltac:(lia)) as Hpos.
  assert (Hlen : len (fmtDigits 19 v "") = length).
  { unfold len. rewrite (fmtDigits_length _ 19 v "" Hd) by lia.
    cbn [String.length]. lia. }
  assert (Heq : Sprintf_0star_d length v = fmtDigits 19 v "").
  { unfold Sprintf_0star_d.
    destruct (Z.ltb_spec v 0); [lia|].
    rewrite Z.abs_eq by lia. rewrite Hlen.
    unfold tooLarge.
    destruct (Z.ltb_spec 1000000 length); [lia|].
    destruct (Z.ltb_spec length (-1000000)); [lia|]. cbn [orb].
    destruct (Z.ltb_spec length 0); [lia|].
    rewrite Z.sub_diag. reflexivity. }
  rewrite Heq. split; [reflexivity|]. split; [exact Hlen|]. split.
  - apply (fmtDigits_digits_only _ 19 v "" Hd); [lia | reflexivity].
  - unfold atoi. rewrite (fmtDigits_atoi _ 19 v 0 "" Hd) by lia.
    reflexivity.
Qed.

Lemma draw_width_pow (length : Z) :
  1 <= length <= 18 -> draw_width length = 10 ^ length - 10 ^ (length - 1).
Proof.
  intros Hl. unfold draw_width. rewrite min_of_Length_pow by lia.
  pose proof (pow10_pos (length - 1) ltac:(lia)) as Hpos.
  pose proof (pow10_le_18 length ltac:(lia)) as Hle.
  pose proof (pow10_succ (length - 1) ltac:(lia)) as Hs.
  replace (length - 1 + 1) with length in Hs by lia.
  rewrite pow10_18 in Hle. rewrite Hs in *.
  set (p := 10 ^ (length - 1)) in *.
  rewrite (wrap64_small (p * 10)) by in_int64.
  rewrite (wrap64_small (p * 10 - 1)) by in_int64.
  rewrite (wrap64_small (p * 10 - 1 - p)) by in_int64.
  rewrite wrap64_small by in_int64. lia.
Qed.

Lemma drawn_number_range (length x : Z) :
  1 <= length <= 18 ->
  10 ^ (length - 1) <= drawn_number length x < 10 ^ length.
Proof.
  intros Hl. unfold drawn_number.
  rewrite draw_width_pow, min_of_Length_pow by lia.
  pose proof (pow10_pos (length - 1) ltac:(lia)) as Hpos.
  pose proof (pow10_le_18 length ltac:(lia)) as Hle.
  pose proof (pow10_succ (length - 1) ltac:(lia)) as Hs.
  replace (length - 1 + 1) with length in Hs by lia.
  rewrite pow10_18 in Hle. rewrite Hs in *.
  set (p := 10 ^ (length - 1)) in *.
  pose proof (Z.mod_pos_bound x (p * 10 - p) ltac:(lia)) as Hmod.
  set (n := x mod (p * 10 - p)) in *.
  rewrite (wrap64_small n) by in_int64.
  rewrite wrap64_small by in_int64. lia.
Qed.

End Formatting.

(** ** The service on the in-memory cache *)

Section ServiceFacts.
Implicit Types (o : otpServiceInstance) (c : gmap string CacheEntry).
Implicit Types (key otp : string) (now x : Z).

Lemma NewService_Length (conf : GoOTPServiceConfig) :
  1 <= Length (NewService conf).1 /\
  (1 <= conf_Length conf -> Length (NewService conf).1 = conf_Length conf) /\
  (conf_Length conf < 1 -> Length (NewService conf).1 = 6).
Proof.
  unfold NewService. cbn [fst Length].
  destruct (Z.ltb_spec (conf_Length conf) 1); repeat split; lia.
Qed.

(** [GenerateOTP] when the range is not empty and the reader delivers. *)
Lemma GenerateOTP_draw o x now key c :
  0 < draw_width (Length o) ->
  GenerateOTP o (Some x) now key c =
  let otp := Sprintf_0star_d (Length o) (drawn_number (Length o) x) in
  match CacheInstance.Set_ key (AnyString otp) (now + 600) c with
  | (Some err, c') => Ret (("", Some (ErrStoreOTP err)), c')
  | (None, c') => Ret ((otp, None), c')
  end.
Proof.
  unfold GenerateOTP, rand_Int, drawn_number, draw_width. cbv zeta.
  set (min := min_of_Length (Length o)).
  set (diff := wrap64 (wrap64 (wrap64 (wrap64 (min * 10) - 1) - min) + 1)).
  intros Hw.
  destruct (Z.leb_spec diff 0); [lia|].
  set (otp := Sprintf_0star_d (Length o) (wrap64 (wrap64 (x mod diff) + min))).
  unfold mbind, M_bind, call, mret, M_ret. cbn [Set_ CacheInstance_Cache].
  destruct (CacheInstance.Set_ key (AnyString otp) (now + 600) c)
    as [[err|] c']; reflexivity.
Qed.

(** [ValidateOTP] on the in-memory cache, call by call. *)
Lemma ValidateOTP_cases o now key otp c :
  ValidateOTP o now key otp c =
  if String.eqb otp "" || negb (len otp =? Length o) then
    Ret ((false, Some ErrInvalidOTP), c)
  else
    match c !! key with
    | None => Ret ((false, Some (ErrNotFound key)), c)
    | Some entry =>
        if IsExpired entry now then Ret ((false, Some (ErrNotFound key)), c)
        else
          match Data entry with
          | AnyNil => Ret ((false, Some (ErrMismatch key)), c)
          | AnyOther dynamic_type =>
              Panic ("interface conversion: interface {} is " +:+ dynamic_type
                     +:+ ", not string")
          | AnyString cached =>
              if String.eqb cached otp then Ret ((true, None), delete key c)
              else Ret ((false, Some (ErrMismatch key)), c)
          end
    end.
Proof.
  unfold ValidateOTP.
  destruct (String.eqb otp "" || negb (len otp =? Length o)); [reflexivity|].
  unfold mbind, M_bind, call, call_, mret, M_ret, panic.
  cbn [Get Delete CacheInstance_Cache]. unfold CacheInstance.Get.
  destruct (c !! key) as [entry|]; [|reflexivity].
  destruct (IsExpired entry now); [reflexivity|]. cbn [negb].
  destruct (Data entry) as [|cached|tag]; try reflexivity.
  destruct (String.eqb cached otp); reflexivity.
Qed.

(** The format check lets a string of the configured length through. *)
Lemma format_ok o otp :
  1 <= Length o -> len otp = Length o ->
  String.eqb otp "" || negb (len otp =? Length o) = false.
Proof.
  intros Hl Hlen.
  assert (otp <> "") as Hne by (intros ->; unfold len in Hlen; simpl in Hlen; lia).
  apply String.eqb_neq in Hne. rewrite Hne.
  apply Z.eqb_eq in Hlen. by rewrite Hlen.
Qed.

(** For a length from 1 to 18, a non-empty key and a reader that delivers,
    [GenerateOTP] succeeds; the OTP has exactly [Length o] decimal digits
    and its value lies in [[10^(L-1), 10^L - 1]], which for a length of 1
    is [[1, 9]]; the OTP is stored under the key for 600 seconds. *)
Lemma GenerateOTP_up_to_18 o x now key c :
  1 <= Length o <= 18 -> key <> "" ->
  exists otp,
    GenerateOTP o (Some x) now key c =
      Ret ((otp, None),
           <[key := {| Data := AnyString otp; Expiry := now + 600 |}]> c) /\
    len otp = Length o /\
    digits_only otp = true /\
    10 ^ (Length o - 1) <= atoi otp <= 10 ^ Length o - 1.
Proof.
  intros Hl Hkey.
  pose proof (drawn_number_range (Length o) x Hl) as Hr.
  destruct (Sprintf_in_range (Length o) _ ltac:(lia) Hr) as (_ & Hlen & Hdig & Hval).
  exists (Sprintf_0star_d (Length o) (drawn_number (Length o) x)).
  split; [|split; [exact Hlen | split; [exact Hdig | rewrite Hval; lia]]].
  rewrite GenerateOTP_draw.
  - cbv zeta. by rewrite Set_lookup.
  - rewrite draw_width_pow by lia.
    pose proof (pow10_pos (Length o - 1) ltac:(lia)).
    pose proof (pow10_succ (Length o - 1) ltac:(lia)) as Hs.
    replace (Length o - 1 + 1) with (Length o) in Hs by lia. lia.
Qed.

(** [GenerateOTP] keeps a store of strings a store of strings. *)
Lemma GenerateOTP_all_strings o (reader : option Z) now key c
    (res : string * option error) c' :
  all_strings c ->
  GenerateOTP o reader now key c = Ret (res, c') ->
  all_strings c'.
Proof.
  intros Hall. unfold GenerateOTP.
  destruct (rand_Int reader _) as [[n|err]|msg]; [| |discriminate].
  - unfold mbind, M_bind, call, mret, M_ret. cbn [Set_ CacheInstance_Cache].
    unfold CacheInstance.Set_.
    destruct (decide (key = "")); intros [= <- <-]; [exact Hall|].
    intros k entry Hk.
    destruct (decide (k = key)) as [->|Hne].
    + rewrite lookup_insert_eq in Hk. injection Hk as <-. eauto.
    + rewrite lookup_insert_ne in Hk by done. eauto.
  - intros [= <- <-]. exact Hall.
Qed.

End ServiceFacts.

(** ** Generate, then validate *)

(** C1, as amended. For a non-empty key, a configured length of at most 18
    (a length below 1 counts as 6) and a reader that delivers,
    [GenerateOTP] succeeds, [ValidateOTP] of the returned OTP made no later
    than 600 seconds after it returns [(true, nil)] and deletes the entry,
    and a second [ValidateOTP] of the same OTP, whenever it is made, returns
    [false] with the not-found error. *)
Theorem GenerateOTP_ValidateOTP_single_use (conf : GoOTPServiceConfig)
    (x now now1 now2 : Z) (key : string) (c : gmap string CacheEntry) :
  key <> "" ->
  conf_Length conf <= 18 ->
  now1 <= now + 600 ->
  exists (otp : string) (c1 : gmap string CacheEntry),
    GenerateOTP (NewService conf).1 (Some x) now key c
      = Ret ((otp, None), c1) /\
    ValidateOTP (NewService conf).1 now1 key otp c1
      = Ret ((true, None), delete key c1) /\
    ValidateOTP (NewService conf).1 now2 key otp (delete key c1)
      = Ret ((false, Some (ErrNotFound key)), delete key c1).
Proof.
  intros Hkey Hconf Hnow.
  destruct (NewService_Length conf) as (Hmin & Hsame & Hdefault).
  set (o := (NewService conf).1) in *.
  assert (Hl : 1 <= Length o <= 18).
  { destruct (Z.lt_ge_cases (conf_Length conf) 1); [rewrite Hdefault|rewrite Hsame]; lia. }
  destruct (GenerateOTP_up_to_18 o x now key c Hl Hkey)
    as (otp & Hgen & Hlen & _ & _).
  exists otp, (<[key := {| Data := AnyString otp; Expiry := now + 600 |}]> c).
  split; [exact Hgen|]. split.
  - rewrite ValidateOTP_cases, format_ok by lia.
    rewrite lookup_insert_eq.
    assert (He : IsExpired {| Data := AnyString otp; Expiry := now + 600 |}
                   now1 = false) by (apply IsExpired_false; simpl; lia).
    rewrite He. cbn [Data]. by rewrite String.eqb_refl.
  - rewrite ValidateOTP_cases, format_ok by lia.
    by rewrite lookup_delete_eq.
Qed.

Lemma GenerateOTP_ValidateOTP_single_use_witness :
  exists (otp : string) (c1 : gmap string CacheEntry),
    GenerateOTP (NewService {| conf_Length := 4 |}).1 (Some 5734)
      1700000000 "u1" ∅ = Ret ((otp, None), c1) /\
    ValidateOTP (NewService {| conf_Length := 4 |}).1 1700000030 "u1" otp c1
      = Ret ((true, None), delete "u1" c1) /\
    ValidateOTP (NewService {| conf_Length := 4 |}).1 1700000031 "u1" otp
      (delete "u1" c1)
      = Ret ((false, Some (ErrNotFound "u1")), delete "u1" c1).
Proof.
  apply (GenerateOTP_ValidateOTP_single_use
           {| conf_Length := 4 |} 5734 1700000000 1700000030 1700000031
           "u1" ∅).
  - discriminate.
  - simpl. lia.
  - lia.
Defined.

(** C1 as stated fails for the empty key: [GenerateOTP] stores nothing and
    returns the empty string with an error, and [ValidateOTP] of that
    returned value is rejected instead of returning [(true, nil)]. *)
Lemma GenerateOTP_ValidateOTP_empty_key :
  GenerateOTP (NewService {| conf_Length := 6 |}).1 (Some 123456)
    1700000000 "" (∅ : gmap string CacheEntry)
    = Ret (("", Some (ErrStoreOTP ErrKeyEmpty)), ∅) /\
  ValidateOTP (NewService {| conf_Length := 6 |}).1 1700000000 "" ""
    (∅ : gmap string CacheEntry)
    = Ret ((false, Some ErrInvalidOTP), ∅).
Proof. split; reflexivity. Qed.

(** ** The shape of an OTP *)

(** C4 at the lengths where the code departs from it. With a length of 19
    the upper bound [10^19 - 1] does not fit an [int64]: for the draw
    [8999999999999999999] the sum wraps to a negative number and the OTP is
    a sign and 19 digits, 20 bytes in all and not a string of digits. With a
    length of 20 the width of the range wraps to a negative number and the
    draw panics. *)
Theorem GenerateOTP_overflows_from_length_19 :
  GenerateOTP (NewService {| conf_Length := 19 |}).1
    (Some 8999999999999999999) 1700000000 "u1" (∅ : gmap string CacheEntry)
    = Ret (("-8446744073709551617", None),
           <["u1" := {| Data := AnyString "-8446744073709551617";
                        Expiry := 1700000600 |}]> ∅) /\
  len "-8446744073709551617" = 20 /\
  digits_only "-8446744073709551617" = false /\
  draw_width 20 = -2233720368547758080 /\
  GenerateOTP (NewService {| conf_Length := 20 |}).1
    (Some 0) 1700000000 "u1" (∅ : gmap string CacheEntry)
    = Panic "crypto/rand: argument to Int is <= 0".
Proof. repeat split; vm_compute; reflexivity. Qed.

(** ** Rejected formats *)

(** C5. Whatever the cache behind the service, [ValidateOTP] of an empty
    OTP or of one whose length is not the configured one returns [false]
    with [ErrInvalidOTP] and hands back the store as it received it: no
    method of the cache is called. *)
Theorem ValidateOTP_invalid_format (S : Type) (C : Cache S)
    (o : otpServiceInstance) (now : Z) (key otp : string) (s : S) :
  otp = "" \/ len otp <> Length o ->
  ValidateOTP o now key otp s = Ret ((false, Some ErrInvalidOTP), s).
Proof.
  intros Hbad. unfold ValidateOTP.
  assert (Hcheck : String.eqb otp "" || negb (len otp =? Length o) = true).
  { destruct Hbad as [-> | Hlen]; [reflexivity|].
    apply Z.eqb_neq in Hlen. rewrite Hlen. apply orb_true_r. }
  by rewrite Hcheck.
Qed.

Lemma ValidateOTP_invalid_format_witness :
  ValidateOTP (NewService {| conf_Length := 6 |}).1 1700000000 "u1" "12345"
    (mkRecorded (∅ : gmap string CacheEntry) [])
  = Ret ((false, Some ErrInvalidOTP), mkRecorded ∅ []).
Proof.
  apply (ValidateOTP_invalid_format (Recorded (gmap string CacheEntry)) _
           (NewService {| conf_Length := 6 |}).1 1700000000 "u1" "12345").
  right. vm_compute. discriminate.
Defined.

(** A well-formed OTP does reach the cache: the calls are on record. *)
Example ValidateOTP_valid_format_calls :
  ValidateOTP (NewService {| conf_Length := 6 |}).1 1700000000 "u1" "123456"
    (mkRecorded
       (<["u1" := {| Data := AnyString "123456"; Expiry := 1700000600 |}]> ∅
        : gmap string CacheEntry) [])
  = Ret ((true, None), mkRecorded ∅ ["Delete"; "Get"]).
Proof. vm_compute. reflexivity. Qed.

(** ** Mismatch *)

(** C6, as amended. For a key with a live cached OTP, [ValidateOTP] of a
    value of the configured length that differs from the cached OTP returns
    [false] with the mismatch error and leaves the store as it was;
    [ValidateOTP] of the cached OTP, at any time up to its expiry, then
    still returns [(true, nil)] provided the cached OTP has the configured
    length. *)
Theorem ValidateOTP_mismatch_keeps_entry (conf : GoOTPServiceConfig)
    (now expiry : Z) (key wrong cached : string)
    (c : gmap string CacheEntry) :
  c !! key = Some {| Data := AnyString cached; Expiry := expiry |} ->
  now <= expiry ->
  len wrong = Length (NewService conf).1 ->
  wrong <> cached ->
  ValidateOTP (NewService conf).1 now key wrong c
    = Ret ((false, Some (ErrMismatch key)), c) /\
  (len cached = Length (NewService conf).1 ->
   forall now', now' <= expiry ->
     ValidateOTP (NewService conf).1 now' key cached c
       = Ret ((true, None), delete key c)).
Proof.
  intros Hk Hlive Hlen Hne.
  destruct (NewService_Length conf) as (Hmin & _).
  assert (He : forall t, t <= expiry ->
                 IsExpired {| Data := AnyString cached; Expiry := expiry |} t
                 = false) by (intros t Ht; by apply IsExpired_false).
  split.
  - rewrite ValidateOTP_cases, format_ok, Hk, He by done. cbn [Data].
    assert (Hdiff : String.eqb cached wrong = false)
      by (apply String.eqb_neq; congruence).
    by rewrite Hdiff.
  - intros Hcached now' Hlater.
    rewrite ValidateOTP_cases, format_ok, Hk, He by done. cbn [Data].
    by rewrite String.eqb_refl.
Qed.

Lemma ValidateOTP_mismatch_keeps_entry_witness :
  let c : gmap string CacheEntry :=
    <["u1" := {| Data := AnyString "0734"; Expiry := 1700000600 |}]> ∅ in
  ValidateOTP (NewService {| conf_Length := 4 |}).1 1700000010 "u1" "0735" c
    = Ret ((false, Some (ErrMismatch "u1")), c) /\
  ValidateOTP (NewService {| conf_Length := 4 |}).1 1700000600 "u1" "0734" c
    = Ret ((true, None), delete "u1" c).
Proof.
  intros c.
  destruct (ValidateOTP_mismatch_keeps_entry {| conf_Length := 4 |}
              1700000010 1700000600 "u1" "0735" "0734" c)
    as [Hmismatch Hcorrect].
  - reflexivity.
  - lia.
  - reflexivity.
  - discriminate.
  - split; [exact Hmismatch|].
    apply Hcorrect; [reflexivity | lia].
Defined.

(** C6 as stated fails when the cached OTP is not of the configured length
    of the service that validates. The cache that [GetCache] hands out is
    one for all services: an OTP that a service of length 6 cached is live
    under the key, a service of length 4 answers a wrong value of its
    length with the mismatch error and leaves the entry in place, and then
    rejects the correct value for its format before it looks at the cache,
    so that validation with the correct value does not succeed. *)
Lemma ValidateOTP_cached_of_other_length :
  let c : gmap string CacheEntry :=
    <["u1" := {| Data := AnyString "123456"; Expiry := 1700000600 |}]> ∅ in
  GenerateOTP (NewService {| conf_Length := 6 |}).1 (Some 23456)
    1700000000 "u1" ∅ = Ret (("123456", None), c) /\
  len "0000" = Length (NewService {| conf_Length := 4 |}).1 /\
  "0000" <> "123456" /\
  ValidateOTP (NewService {| conf_Length := 4 |}).1 1700000010 "u1" "0000" c
    = Ret ((false, Some (ErrMismatch "u1")), c) /\
  ValidateOTP (NewService {| conf_Length := 4 |}).1 1700000020 "u1" "123456"
    c = Ret ((false, Some ErrInvalidOTP), c).
Proof. vm_compute. repeat split. discriminate. Qed.

(** ** What is returned is what is stored *)



(** ** The type assertion *)

(** C10. On a store in which every value is a string, as is every value
    that [GenerateOTP] stores, the assertion [cachedOTP.(string)] cannot
    fail: for every key and every submitted OTP, [ValidateOTP] returns a
    pair of a boolean and an error, and the store it leaves behind again
    holds strings only. *)
Theorem ValidateOTP_returns_on_strings (o : otpServiceInstance) (now : Z)
    (key otp : string) (c : gmap string CacheEntry) :
  all_strings c ->
  exists (ok : bool) (err : option error) (c' : gmap string CacheEntry),
    ValidateOTP o now key otp c = Ret ((ok, err), c') /\ all_strings c'.
Proof.
  intros Hall. rewrite ValidateOTP_cases.
  destruct (String.eqb otp "" || negb (len otp =? Length o)); [by eauto|].
  destruct (c !! key) as [entry|] eqn:Hk; [|by eauto].
  destruct (IsExpired entry now); [by eauto|].
  destruct (Hall key entry Hk) as [cached ->].
  destruct (String.eqb cached otp); [|by eauto].
  exists true, None, (delete key c). split; [reflexivity|].
  intros k e He. apply lookup_delete_Some in He as [_ He]. eauto.
Qed.

Lemma ValidateOTP_returns_on_strings_witness :
  exists (ok : bool) (err : option error) (c' : gmap string CacheEntry),
    ValidateOTP (NewService {| conf_Length := 4 |}).1 1700000010 "u1" "6734"
      (<["u1" := {| Data := AnyString "6734"; Expiry := 1700000600 |}]> ∅)
    = Ret ((ok, err), c') /\ all_strings c'.
Proof.
  apply (ValidateOTP_returns_on_strings
           (NewService {| conf_Length := 4 |}).1 1700000010 "u1" "6734").
  apply (GenerateOTP_all_strings (NewService {| conf_Length := 4 |}).1
           (Some 5734) 1700000000 "u1" ∅ ("6734", None)).
  - intros k e He. rewrite lookup_empty in He. discriminate.
  - vm_compute. reflexivity.
Defined.

(** Without the precondition the assertion does fail: a live value of
    another type under the key makes [ValidateOTP] panic. *)
Example ValidateOTP_panics_on_other_type :
  ValidateOTP (NewService {| conf_Length := 4 |}).1 1700000010 "u1" "6734"
    (<["u1" := {| Data := AnyOther "int"; Expiry := 1700000600 |}]> ∅
     : gmap string CacheEntry)
  = Panic "interface conversion: interface {} is int, not string".
Proof. vm_compute. reflexivity. Qed.

(** * Further properties of the cache *)

Section CacheMore.
Implicit Types (c : gmap string CacheEntry) (key : string) (now : Z).

(** [Delete] removes the entry of its key and nothing else: the key is
    then absent for [Get] and [Exists] at any time, the other keys keep
    their entries, deleting twice is deleting once, and deleting a key that
    is absent leaves the store as it was. *)
Theorem Delete_removes_only_key key now c :
  CacheInstance.Get now key (CacheInstance.Delete key c)
    = ((AnyNil, false), CacheInstance.Delete key c) /\
  CacheInstance.Exists now key (CacheInstance.Delete key c)
    = (false, CacheInstance.Delete key c) /\
  (forall other, other <> key ->
     CacheInstance.Delete key c !! other = c !! other) /\
  CacheInstance.Delete key (CacheInstance.Delete key c)
    = CacheInstance.Delete key c /\
  (c !! key = None -> CacheInstance.Delete key c = c).
Proof.
  unfold CacheInstance.Delete, CacheInstance.Get, CacheInstance.Exists.
  rewrite lookup_delete_eq. repeat split.
  - intros other Hother. by apply lookup_delete_ne.
  - apply map_eq. intros k. destruct (decide (k = key)) as [->|Hne].
    + by rewrite !lookup_delete_eq.
    + by rewrite !lookup_delete_ne.
  - intros Hk. by apply delete_id.
Qed.

(** [Clear] forgets everything, whatever the store held: afterwards every
    key is absent for [Get] and [Exists], a sweep finds nothing to do, and
    the store after a next [Set] holds that one entry only. *)
Theorem Clear_forgets key now c :
  CacheInstance.Get now key (CacheInstance.Clear c) = ((AnyNil, false), ∅) /\
  CacheInstance.Exists now key (CacheInstance.Clear c) = (false, ∅) /\
  CacheInstance.RemoveExpiredEntries now (CacheInstance.Clear c) = ∅ /\
  (forall value expiration other, key <> "" -> other <> key ->
     (CacheInstance.Set_ key value expiration (CacheInstance.Clear c)).2
       !! other = None).
Proof.
  unfold CacheInstance.Clear, CacheInstance.Get, CacheInstance.Exists.
  rewrite lookup_empty.
  split; [reflexivity|]. split; [reflexivity|]. split.
  - apply map_eq. intros k.
    by rewrite RemoveExpiredEntries_lookup, lookup_empty.
  - intros value expiration other Hkey Hother.
    rewrite Set_lookup by done. cbn [snd].
    rewrite lookup_insert_ne by done. apply lookup_empty.
Qed.

(** [Exists] answers what the second result of [Get] answers, at every
    time and on every store, and [Get] returns a value other than nil only
    together with [true]. *)
Theorem Exists_agrees_with_Get key now c :
  (CacheInstance.Exists now key c).1 = (CacheInstance.Get now key c).1.2 /\
  ((CacheInstance.Get now key c).1.2 = false ->
   (CacheInstance.Get now key c).1.1 = AnyNil).
Proof.
  rewrite Exists_lookup, Get_lookup.
  destruct (c !! key) as [entry|]; [|done].
  destruct (IsExpired entry now); done.
Qed.

(** [Set] then [Get]: under a key that is not empty the value just set is
    found, as it was given, at every time up to and including its expiry
    instant, and is not found after it. *)
Theorem Set_then_Get key (value : any) (expiration : Z) now c :
  key <> "" ->
  (now <= expiration ->
   (CacheInstance.Get now key
      (CacheInstance.Set_ key value expiration c).2).1 = (value, true) /\
   (CacheInstance.Exists now key
      (CacheInstance.Set_ key value expiration c).2).1 = true) /\
  (expiration < now ->
   (CacheInstance.Get now key
      (CacheInstance.Set_ key value expiration c).2).1 = (AnyNil, false) /\
   (CacheInstance.Exists now key
      (CacheInstance.Set_ key value expiration c).2).1 = false).
Proof.
  intros Hkey. rewrite Set_lookup by done. cbn [snd].
  rewrite Get_lookup, Exists_lookup, lookup_insert_eq.
  split; intros Ht.
  - assert (IsExpired {| Data := value; Expiry := expiration |} now = false)
      as -> by (by apply IsExpired_false). done.
  - assert (IsExpired {| Data := value; Expiry := expiration |} now = true)
      as -> by (by apply IsExpired_true). done.
Qed.

Lemma Set_then_Get_witness :
  (CacheInstance.Get 1700000600 "u1"
     (CacheInstance.Set_ "u1" (AnyString "0734") 1700000600 ∅).2).1
    = (AnyString "0734", true) /\
  (CacheInstance.Exists 1700000600 "u1"
     (CacheInstance.Set_ "u1" (AnyString "0734") 1700000600 ∅).2).1 = true.
Proof.
  destruct (Set_then_Get "u1" (AnyString "0734") 1700000600 1700000600 ∅)
    as [Hlive _]; [discriminate|].
  apply Hlive. lia.
Defined.

(** The last [Set] of a key wins, with nothing left of the one before, and
    two [Set]s of different keys give the same store in either order. *)
Theorem Set_last_writer_wins key key' (v v' : any) (e e' : Z) c :
  key <> "" -> key' <> "" ->
  (CacheInstance.Set_ key v' e' (CacheInstance.Set_ key v e c).2).2
    = (CacheInstance.Set_ key v' e' c).2 /\
  (key <> key' ->
   (CacheInstance.Set_ key' v' e' (CacheInstance.Set_ key v e c).2).2
     = (CacheInstance.Set_ key v e (CacheInstance.Set_ key' v' e' c).2).2).
Proof.
  intros Hkey Hkey'. rewrite !Set_lookup by done. cbn [snd].
  rewrite ?Set_lookup by done. cbn [snd]. split.
  - apply insert_insert_eq.
  - intros Hne. by apply insert_insert_ne.
Qed.

Lemma Set_last_writer_wins_witness :
  (CacheInstance.Set_ "u1" (AnyString "2222") 20
     (CacheInstance.Set_ "u1" (AnyString "1111") 10 ∅).2).2
    = (CacheInstance.Set_ "u1" (AnyString "2222") 20 ∅).2 /\
  (CacheInstance.Set_ "u2" (AnyString "2222") 20
     (CacheInstance.Set_ "u1" (AnyString "1111") 10 ∅).2).2
    = (CacheInstance.Set_ "u1" (AnyString "1111") 10
         (CacheInstance.Set_ "u2" (AnyString "2222") 20 ∅).2).2.
Proof.
  destruct (Set_last_writer_wins "u1" "u2" (AnyString "1111")
              (AnyString "2222") 10 20 ∅) as [Hsame Hother];
    [discriminate | discriminate |].
  split; [exact Hsame | apply Hother; discriminate].
Defined.

End CacheMore.

(** ** More on the sweep *)

Section SweepMore.
Implicit Types (c : gmap string CacheEntry) (key : string) (now : Z).

(** The sweep keeps exactly the entries that have not expired: the loop
    that deletes while it ranges over the map computes the part of the map
    whose expiry is at or after the time of the scan, a part of the store
    it started from. *)
Theorem RemoveExpiredEntries_is_filter now c :
  CacheInstance.RemoveExpiredEntries now c
    = filter (fun kv : string * CacheEntry => now <= Expiry kv.2) c /\
  CacheInstance.RemoveExpiredEntries now c ⊆ c.
Proof.
  split.
  - apply map_eq. intros k. rewrite RemoveExpiredEntries_lookup.
    destruct (c !! k) as [entry|] eqn:Hk.
    + destruct (IsExpired entry now) eqn:He.
      * symmetry. apply map_lookup_filter_None. right.
        intros e He'. rewrite Hk in He'. injection He' as <-.
        apply IsExpired_true in He. cbn [snd]. lia.
      * symmetry. apply map_lookup_filter_Some. split; [exact Hk|].
        apply IsExpired_false in He. exact He.
    + symmetry. apply map_lookup_filter_None. by left.
  - apply map_subseteq_spec. intros k entry.
    rewrite RemoveExpiredEntries_lookup.
    destruct (c !! k) as [e|]; [|discriminate].
    destruct (IsExpired e now); [discriminate | done].
Qed.

Lemma RemoveExpiredEntries_twice now now' c :
  now <= now' ->
  CacheInstance.RemoveExpiredEntries now'
    (CacheInstance.RemoveExpiredEntries now c)
    = CacheInstance.RemoveExpiredEntries now' c /\
  CacheInstance.RemoveExpiredEntries now
    (CacheInstance.RemoveExpiredEntries now' c)
    = CacheInstance.RemoveExpiredEntries now' c.
Proof.
  intros Hle. split; apply map_eq; intros k;
    rewrite !RemoveExpiredEntries_lookup;
    (destruct (c !! k) as [entry|]; [|done]).
  - destruct (IsExpired entry now) eqn:He.
    + apply IsExpired_true in He.
      assert (IsExpired entry now' = true) as ->
        by (apply IsExpired_true; lia). done.
    + done.
  - destruct (IsExpired entry now') eqn:He'; [done|].
    apply IsExpired_false in He'.
    assert (IsExpired entry now = false) as ->
      by (apply IsExpired_false; lia). done.
Qed.

(** Sweeps compose: a sweep after a sweep, in either order, leaves what
    the later of the two times alone leaves; so a sweep repeated at the
    same time changes nothing more. *)
Theorem RemoveExpiredEntries_compose now now' c :
  now <= now' ->
  CacheInstance.RemoveExpiredEntries now'
    (CacheInstance.RemoveExpiredEntries now c)
    = CacheInstance.RemoveExpiredEntries now' c /\
  CacheInstance.RemoveExpiredEntries now
    (CacheInstance.RemoveExpiredEntries now' c)
    = CacheInstance.RemoveExpiredEntries now' c /\
  CacheInstance.RemoveExpiredEntries now
    (CacheInstance.RemoveExpiredEntries now c)
    = CacheInstance.RemoveExpiredEntries now c.
Proof.
  intros Hle.
  destruct (RemoveExpiredEntries_twice now now' c Hle) as [H1 H2].
  destruct (RemoveExpiredEntries_twice now now c ltac:(lia)) as [H3 _].
  done.
Qed.

Lemma RemoveExpiredEntries_compose_witness :
  let c : gmap string CacheEntry :=
    <["a" := {| Data := AnyString "1111"; Expiry := 100 |}]>
      (<["b" := {| Data := AnyString "2222"; Expiry := 200 |}]> ∅) in
  CacheInstance.RemoveExpiredEntries 150
    (CacheInstance.RemoveExpiredEntries 50 c)
    = CacheInstance.RemoveExpiredEntries 150 c /\
  CacheInstance.RemoveExpiredEntries 50
    (CacheInstance.RemoveExpiredEntries 150 c)
    = CacheInstance.RemoveExpiredEntries 150 c /\
  CacheInstance.RemoveExpiredEntries 50
    (CacheInstance.RemoveExpiredEntries 50 c)
    = CacheInstance.RemoveExpiredEntries 50 c.
Proof.
  intros c. apply (RemoveExpiredEntries_compose 50 150 c). lia.
Defined.

(** The two ways of enforcing expiry agree: a sweep at some time changes
    no answer of [Get] or [Exists] at that time or later, for any key. What
    the sweep removed, the reads had stopped seeing. *)
Theorem RemoveExpiredEntries_unseen_by_reads now now' key c :
  now <= now' ->
  (CacheInstance.Get now' key (CacheInstance.RemoveExpiredEntries now c)).1
    = (CacheInstance.Get now' key c).1 /\
  (CacheInstance.Exists now' key
     (CacheInstance.RemoveExpiredEntries now c)).1
    = (CacheInstance.Exists now' key c).1.
Proof.
  intros Hle. rewrite !Get_lookup, !Exists_lookup, RemoveExpiredEntries_lookup.
  destruct (c !! key) as [entry|]; [|done].
  destruct (IsExpired entry now) eqn:He; [|done].
  apply IsExpired_true in He.
  assert (IsExpired entry now' = true) as -> by (apply IsExpired_true; lia).
  done.
Qed.

Lemma RemoveExpiredEntries_unseen_by_reads_witness :
  let c : gmap string CacheEntry :=
    <["a" := {| Data := AnyString "1111"; Expiry := 100 |}]> ∅ in
  (CacheInstance.Get 101 "a" (CacheInstance.RemoveExpiredEntries 101 c)).1
    = (CacheInstance.Get 101 "a" c).1 /\
  (CacheInstance.Exists 101 "a" (CacheInstance.RemoveExpiredEntries 101 c)).1
    = (CacheInstance.Exists 101 "a" c).1.
Proof.
  intros c. apply (RemoveExpiredEntries_unseen_by_reads 101 101 "a" c). lia.
Defined.

(** A sweep during which the clock moves: if every reading of the clock
    lies between the start and the end of the scan, the entries that had
    expired before the start are removed, those that have not expired at
    the end are kept as they are, and nothing is added, in whatever order
    the map is ranged over. *)
Theorem RemoveExpiredEntriesAt_between (clock : string -> Z)
    (start finish : Z) key c :
  (forall k, start <= clock k <= finish) ->
  (forall entry, c !! key = Some entry -> Expiry entry < start ->
     CacheInstance.RemoveExpiredEntriesAt clock c !! key = None) /\
  (forall entry, c !! key = Some entry -> finish <= Expiry entry ->
     CacheInstance.RemoveExpiredEntriesAt clock c !! key = Some entry) /\
  (c !! key = None ->
     CacheInstance.RemoveExpiredEntriesAt clock c !! key = None).
Proof.
  intros Hclock. specialize (Hclock key).
  rewrite RemoveExpiredEntriesAt_lookup. repeat split.
  - intros entry -> Ht.
    assert (IsExpired entry (clock key) = true) as ->
      by (apply IsExpired_true; lia). done.
  - intros entry -> Ht.
    assert (IsExpired entry (clock key) = false) as ->
      by (apply IsExpired_false; lia). done.
  - by intros ->.
Qed.

Lemma RemoveExpiredEntriesAt_between_witness :
  let c : gmap string CacheEntry :=
    <["a" := {| Data := AnyString "1111"; Expiry := 99 |}]>
      (<["b" := {| Data := AnyString "2222"; Expiry := 101 |}]> ∅) in
  let clock := fun k : string => if String.eqb k "a" then 100 else 101 in
  (forall entry, c !! "b" = Some entry -> Expiry entry < 100 ->
     CacheInstance.RemoveExpiredEntriesAt clock c !! "b" = None) /\
  (forall entry, c !! "b" = Some entry -> 101 <= Expiry entry ->
     CacheInstance.RemoveExpiredEntriesAt clock c !! "b" = Some entry) /\
  (c !! "b" = None ->
     CacheInstance.RemoveExpiredEntriesAt clock c !! "b" = None).
Proof.
  intros c clock.
  apply (RemoveExpiredEntriesAt_between clock 100 101 "b" c).
  intros k. unfold clock. destruct (String.eqb k "a"); lia.
Defined.

End SweepMore.

(** ** An invariant of the store *)

Section StoreInvariant.
Implicit Types (c : gmap string CacheEntry) (ops : list cache_op).

Lemma run_op_no_empty_key (op : cache_op) c :
  c !! "" = None -> run_op op c !! "" = None.
Proof.
  intros Hc. destruct op as [key value expiration|key| |now]; cbn [run_op].
  - unfold CacheInstance.Set_.
    destruct (decide (key = "")) as [|Hkey]; cbn [snd]; [exact Hc|].
    by rewrite lookup_insert_ne.
  - unfold CacheInstance.Delete.
    destruct (decide (key = "")) as [->|Hkey].
    + apply lookup_delete_eq.
    + by rewrite lookup_delete_ne.
  - apply lookup_empty.
  - by rewrite RemoveExpiredEntries_lookup, Hc.
Qed.

(** No run of [Set], [Delete], [Clear] and sweeps ever puts an entry under
    the empty key: on a store that has none, as the one [GetCache] makes,
    every such run leaves none, and [Get] and [Exists] of the empty key
    keep answering not found. *)
Theorem run_ops_no_empty_key ops c (now : Z) :
  c !! "" = None ->
  run_ops ops c !! "" = None /\
  (CacheInstance.Get now "" (run_ops ops c)).1 = (AnyNil, false) /\
  (CacheInstance.Exists now "" (run_ops ops c)).1 = false.
Proof.
  intros Hc.
  assert (Hrun : run_ops ops c !! "" = None).
  { unfold run_ops. revert c Hc.
    induction ops as [|op ops IH]; intros c Hc; cbn [fold_left]; [exact Hc|].
    apply IH. by apply run_op_no_empty_key. }
  by rewrite Get_lookup, Exists_lookup, Hrun.
Qed.

Lemma run_ops_no_empty_key_witness :
  run_ops [OpSet "" (AnyString "0734") 1700000600;
           OpSet "u1" (AnyString "1234") 1700000600;
           OpRemoveExpiredEntries 1700000000;
           OpDelete "u1";
           OpSet "" AnyNil 1700000600]
          CacheInstance.empty !! "" = None /\
  (CacheInstance.Get 1700000000 ""
     (run_ops [OpSet "" (AnyString "0734") 1700000600;
               OpSet "u1" (AnyString "1234") 1700000600;
               OpRemoveExpiredEntries 1700000000;
               OpDelete "u1";
               OpSet "" AnyNil 1700000600]
              CacheInstance.empty)).1 = (AnyNil, false) /\
  (CacheInstance.Exists 1700000000 ""
     (run_ops [OpSet "" (AnyString "0734") 1700000600;
               OpSet "u1" (AnyString "1234") 1700000600;
               OpRemoveExpiredEntries 1700000000;
               OpDelete "u1";
               OpSet "" AnyNil 1700000600]
              CacheInstance.empty)).1 = false.
Proof.
  apply (run_ops_no_empty_key
           [OpSet "" (AnyString "0734") 1700000600;
            OpSet "u1" (AnyString "1234") 1700000600;
            OpRemoveExpiredEntries 1700000000;
            OpDelete "u1";
            OpSet "" AnyNil 1700000600]
           CacheInstance.empty 1700000000).
  reflexivity.
Defined.

End StoreInvariant.

(** * Further properties of the service *)

Section ServiceMore.
Implicit Types (o : otpServiceInstance) (c : gmap string CacheEntry).
Implicit Types (key otp : string) (now x : Z).

Lemma draw_width_pos (length : Z) :
  1 <= length <= 18 -> 0 < draw_width length.
Proof.
  intros Hl. rewrite draw_width_pow by lia.
  pose proof (pow10_pos (length - 1) ltac:(lia)).
  pose proof (pow10_succ (length - 1) ltac:(lia)) as Hs.
  replace (length - 1 + 1) with length in Hs by lia. lia.
Qed.

Lemma drawn_number_offset (length x : Z) :
  1 <= length <= 18 ->
  0 <= x < 10 ^ length - 10 ^ (length - 1) ->
  drawn_number length x = 10 ^ (length - 1) + x.
Proof.
  intros Hl Hx. unfold drawn_number.
  rewrite draw_width_pow, min_of_Length_pow by lia.
  pose proof (pow10_pos (length - 1) ltac:(lia)) as Hpos.
  pose proof (pow10_le_18 length ltac:(lia)) as Hle.
  rewrite pow10_18 in Hle.
  rewrite Z.mod_small by lia.
  rewrite (wrap64_small x) by in_int64.
  rewrite wrap64_small by in_int64. lia.
Qed.

(** [GenerateOTP] when the range is not empty and the reader fails. *)
Lemma GenerateOTP_no_draw (S : Type) (C : Cache S) o now key (s : S) :
  0 < draw_width (Length o) ->
  GenerateOTP o None now key s
    = Ret (("", Some (ErrRandomNumber ErrReader)), s).
Proof.
  unfold GenerateOTP, rand_Int, draw_width. cbv zeta.
  set (min := min_of_Length (Length o)).
  set (diff := wrap64 (wrap64 (wrap64 (wrap64 (min * 10) - 1) - min) + 1)).
  intros Hw. destruct (Z.leb_spec diff 0); [lia|]. reflexivity.
Qed.

(** [GenerateOTP] on the in-memory cache for a length from 1 to 18, case by
    case. *)
Lemma GenerateOTP_cases o (reader : option Z) now key c :
  1 <= Length o <= 18 ->
  GenerateOTP o reader now key c =
  match reader with
  | None => Ret (("", Some (ErrRandomNumber ErrReader)), c)
  | Some x =>
      let otp := Sprintf_0star_d (Length o) (drawn_number (Length o) x) in
      if decide (key = "") then Ret (("", Some (ErrStoreOTP ErrKeyEmpty)), c)
      else Ret ((otp, None),
                <[key := {| Data := AnyString otp; Expiry := now + 600 |}]> c)
  end.
Proof.
  intros Hl. pose proof (draw_width_pos (Length o) Hl) as Hw.
  destruct reader as [x|].
  - rewrite GenerateOTP_draw by done. cbv zeta.
    unfold CacheInstance.Set_. by destruct (decide (key = "")).
  - by apply GenerateOTP_no_draw.
Qed.

(** When the reader fails, [GenerateOTP] returns the empty string with the
    error that wraps the reader's, and calls no method of the cache,
    whatever cache is behind the service: the store is handed back as it
    was received. *)
Theorem GenerateOTP_reader_failure (S : Type) (C : Cache S) o now key
    (s : S) :
  1 <= Length o <= 18 ->
  GenerateOTP o None now key s
    = Ret (("", Some (ErrRandomNumber ErrReader)), s).
Proof.
  intros Hl. apply GenerateOTP_no_draw. by apply draw_width_pos.
Qed.

Lemma GenerateOTP_reader_failure_witness :
  GenerateOTP (NewService {| conf_Length := 6 |}).1 None 1700000000 "u1"
    (mkRecorded (∅ : gmap string CacheEntry) [])
  = Ret (("", Some (ErrRandomNumber ErrReader)), mkRecorded ∅ []).
Proof.
  apply (GenerateOTP_reader_failure (Recorded (gmap string CacheEntry)) _
           (NewService {| conf_Length := 6 |}).1 1700000000 "u1").
  simpl. lia.
Defined.

(** For the empty key [GenerateOTP] never returns an OTP and never writes:
    whatever the reader yields, the result is the empty string with an
    error, which wraps the cache's empty-key error when the reader
    delivered, and the store is as before. *)
Theorem GenerateOTP_empty_key_rejected o (reader : option Z) now c :
  1 <= Length o <= 18 ->
  exists err,
    GenerateOTP o reader now "" c = Ret (("", Some err), c) /\
    (forall x, reader = Some x -> err = ErrStoreOTP ErrKeyEmpty).
Proof.
  intros Hl. rewrite GenerateOTP_cases by done.
  destruct reader as [x|]; cbv zeta.
  - exists (ErrStoreOTP ErrKeyEmpty). split; [|done].
    by destruct (decide ("" = (""))).
  - exists (ErrRandomNumber ErrReader). split; [done|]. intros x [=].
Qed.

Lemma GenerateOTP_empty_key_rejected_witness :
  exists err,
    GenerateOTP (NewService {| conf_Length := 6 |}).1 (Some 123456)
      1700000000 ""
      (<["u1" := {| Data := AnyString "000734"; Expiry := 1700000600 |}]> ∅)
    = Ret (("", Some err),
           <["u1" := {| Data := AnyString "000734";
                        Expiry := 1700000600 |}]> ∅) /\
    (forall x, Some 123456 = Some x -> err = ErrStoreOTP ErrKeyEmpty).
Proof.
  apply (GenerateOTP_empty_key_rejected
           (NewService {| conf_Length := 6 |}).1 (Some 123456) 1700000000).
  simpl. lia.
Defined.

(** The number of the OTP is the lower bound plus the draw: for a length
    [L] from 1 to 18 and a draw [x] in [[0, 10^L - 10^(L-1))], which is
    the range [rand.Int] is asked for, the OTP has [L] digits and writes
    [10^(L-1) + x]. So every number of [L] digits without a leading zero is
    the OTP of exactly one draw. *)
Theorem GenerateOTP_number_of_draw o x now key c :
  1 <= Length o <= 18 -> key <> "" ->
  0 <= x < 10 ^ Length o - 10 ^ (Length o - 1) ->
  exists otp,
    GenerateOTP o (Some x) now key c
      = Ret ((otp, None),
             <[key := {| Data := AnyString otp; Expiry := now + 600 |}]> c) /\
    len otp = Length o /\
    atoi otp = 10 ^ (Length o - 1) + x.
Proof.
  intros Hl Hkey Hx.
  rewrite GenerateOTP_cases by done. cbv zeta.
  destruct (decide (key = "")); [done|].
  eexists. split; [reflexivity|].
  pose proof (drawn_number_range (Length o) x Hl) as Hr.
  destruct (Sprintf_in_range (Length o) _ ltac:(lia) Hr)
    as (_ & Hlen & _ & Hval).
  split; [exact Hlen|]. rewrite Hval. by apply drawn_number_offset.
Qed.

Lemma GenerateOTP_number_of_draw_witness :
  exists otp,
    GenerateOTP (NewService {| conf_Length := 4 |}).1 (Some 8999)
      1700000000 "u1" ∅
      = Ret ((otp, None),
             <["u1" := {| Data := AnyString otp;
                          Expiry := 1700000000 + 600 |}]> ∅) /\
    len otp = Length (NewService {| conf_Length := 4 |}).1 /\
    atoi otp = 10 ^ (Length (NewService {| conf_Length := 4 |}).1 - 1) + 8999.
Proof.
  apply (GenerateOTP_number_of_draw (NewService {| conf_Length := 4 |}).1
           8999 1700000000 "u1" ∅).
  - simpl. lia.
  - discriminate.
  - simpl. lia.
Defined.

End ServiceMore.

Section ServiceFlows.
Implicit Types (o : otpServiceInstance) (c : gmap string CacheEntry).
Implicit Types (key otp : string) (now x : Z).

(** A service made with no length, or with a length below 1, issues OTPs
    of six digits, between 100000 and 999999; [NewService] itself never
    returns an error. *)
Theorem NewService_default_six_digits (conf : GoOTPServiceConfig) x now key c :
  conf_Length conf < 1 -> key <> "" ->
  (NewService conf).2 = None /\
  exists otp c',
    GenerateOTP (NewService conf).1 (Some x) now key c
      = Ret ((otp, None), c') /\
    len otp = 6 /\ digits_only otp = true /\
    100000 <= atoi otp <= 999999.
Proof.
  intros Hconf Hkey. split; [reflexivity|].
  destruct (NewService_Length conf) as (_ & _ & Hsix).
  specialize (Hsix Hconf).
  destruct (GenerateOTP_up_to_18 (NewService conf).1 x now key c
              ltac:(lia) Hkey) as (otp & Hgen & Hlen & Hdig & Hval).
  rewrite Hsix in Hlen, Hval.
  exists otp. eexists. split; [exact Hgen|].
  split; [exact Hlen|]. split; [exact Hdig|].
  change (10 ^ (6 - 1)) with 100000 in Hval.
  change (10 ^ 6 - 1) with 999999 in Hval. exact Hval.
Qed.

Lemma NewService_default_six_digits_witness :
  (NewService {| conf_Length := 0 |}).2 = None /\
  exists otp c',
    GenerateOTP (NewService {| conf_Length := 0 |}).1 (Some 42)
      1700000000 "u1" ∅ = Ret ((otp, None), c') /\
    len otp = 6 /\ digits_only otp = true /\
    100000 <= atoi otp <= 999999.
Proof.
  apply (NewService_default_six_digits {| conf_Length := 0 |} 42
           1700000000 "u1" ∅).
  - simpl. lia.
  - discriminate.
Defined.

(** A new [GenerateOTP] for a key replaces the OTP that was pending for it:
    the store is the one the second call alone would have left, the first
    OTP, when it differs from the second, is answered with the mismatch
    error, and the second one validates. *)
Theorem GenerateOTP_replaces_pending o (x1 x2 now1 now2 now3 : Z) key c :
  1 <= Length o <= 18 -> key <> "" -> now3 <= now2 + 600 ->
  exists otp1 otp2 c1 c2,
    GenerateOTP o (Some x1) now1 key c = Ret ((otp1, None), c1) /\
    GenerateOTP o (Some x2) now2 key c1 = Ret ((otp2, None), c2) /\
    GenerateOTP o (Some x2) now2 key c = Ret ((otp2, None), c2) /\
    (otp1 <> otp2 ->
     ValidateOTP o now3 key otp1 c2
       = Ret ((false, Some (ErrMismatch key)), c2)) /\
    ValidateOTP o now3 key otp2 c2 = Ret ((true, None), delete key c).
Proof.
  intros Hl Hkey Hnow.
  destruct (GenerateOTP_up_to_18 o x1 now1 key c Hl Hkey)
    as (otp1 & Hgen1 & Hlen1 & _).
  destruct (GenerateOTP_up_to_18 o x2 now2 key
              (<[key := {| Data := AnyString otp1; Expiry := now1 + 600 |}]> c)
              Hl Hkey) as (otp2 & Hgen2 & Hlen2 & _).
  destruct (GenerateOTP_up_to_18 o x2 now2 key c Hl Hkey)
    as (otp2' & Hgen2' & _).
  assert (otp2' = otp2) as ->.
  { rewrite GenerateOTP_cases in Hgen2, Hgen2' by done. cbv zeta in *.
    destruct (decide (key = "")); [done|]. congruence. }
  rewrite insert_insert_eq in Hgen2.
  exists otp1, otp2. do 2 eexists.
  split; [exact Hgen1|]. split; [exact Hgen2|].
  split; [exact Hgen2'|].
  assert (He : IsExpired {| Data := AnyString otp2; Expiry := now2 + 600 |}
                 now3 = false) by (apply IsExpired_false; simpl; lia).
  split.
  - intros Hne.
    rewrite ValidateOTP_cases, format_ok, lookup_insert_eq, He by lia.
    cbn [Data].
    assert (String.eqb otp2 otp1 = false) as ->
      by (apply String.eqb_neq; congruence). done.
  - rewrite ValidateOTP_cases, format_ok, lookup_insert_eq, He by lia.
    cbn [Data]. rewrite String.eqb_refl. by rewrite delete_insert_eq.
Qed.

Lemma GenerateOTP_replaces_pending_witness :
  exists otp1 otp2 c1 c2,
    GenerateOTP (NewService {| conf_Length := 4 |}).1 (Some 1) 1700000000
      "u1" ∅ = Ret ((otp1, None), c1) /\
    GenerateOTP (NewService {| conf_Length := 4 |}).1 (Some 2) 1700000010
      "u1" c1 = Ret ((otp2, None), c2) /\
    GenerateOTP (NewService {| conf_Length := 4 |}).1 (Some 2) 1700000010
      "u1" ∅ = Ret ((otp2, None), c2) /\
    (otp1 <> otp2 ->
     ValidateOTP (NewService {| conf_Length := 4 |}).1 1700000020 "u1" otp1 c2
       = Ret ((false, Some (ErrMismatch "u1")), c2)) /\
    ValidateOTP (NewService {| conf_Length := 4 |}).1 1700000020 "u1" otp2 c2
      = Ret ((true, None), delete "u1" ∅).
Proof.
  apply (GenerateOTP_replaces_pending (NewService {| conf_Length := 4 |}).1
           1 2 1700000000 1700000010 1700000020 "u1" ∅).
  - simpl. lia.
  - discriminate.
  - lia.
Defined.

(** The life of an OTP that is never validated. Up to 600 seconds after
    [GenerateOTP] a sweep leaves it in place and it still validates; later
    than that [ValidateOTP] answers not found and leaves the stale entry in
    the store, from which the next sweep removes it. *)
Theorem GenerateOTP_lifetime o (x now t t' : Z) key c :
  1 <= Length o <= 18 -> key <> "" ->
  exists otp c1,
    GenerateOTP o (Some x) now key c = Ret ((otp, None), c1) /\
    (t <= t' <= now + 600 ->
     ValidateOTP o t' key otp (CacheInstance.RemoveExpiredEntries t c1)
       = Ret ((true, None),
              delete key (CacheInstance.RemoveExpiredEntries t c1))) /\
    (now + 600 < t ->
     ValidateOTP o t key otp c1
       = Ret ((false, Some (ErrNotFound key)), c1) /\
     is_Some (c1 !! key) /\
     CacheInstance.RemoveExpiredEntries t c1 !! key = None).
Proof.
  intros Hl Hkey.
  destruct (GenerateOTP_up_to_18 o x now key c Hl Hkey)
    as (otp & Hgen & Hlen & _).
  exists otp. eexists. split; [exact Hgen|].
  set (entry := {| Data := AnyString otp; Expiry := now + 600 |}).
  split.
  - intros Ht.
    assert (He : forall u, u <= now + 600 -> IsExpired entry u = false)
      by (intros u Hu; by apply IsExpired_false).
    rewrite ValidateOTP_cases, format_ok by lia.
    rewrite RemoveExpiredEntries_lookup, lookup_insert_eq.
    rewrite (He t) by lia. rewrite (He t') by lia.
    cbn [Data entry]. by rewrite String.eqb_refl.
  - intros Ht.
    assert (He : IsExpired entry t = true)
      by (apply IsExpired_true; simpl; lia).
    split; [|split].
    + rewrite ValidateOTP_cases, format_ok by lia.
      by rewrite lookup_insert_eq, He.
    + rewrite lookup_insert_eq. by eexists.
    + by rewrite RemoveExpiredEntries_lookup, lookup_insert_eq, He.
Qed.

Lemma GenerateOTP_lifetime_witness :
  exists otp c1,
    GenerateOTP (NewService {| conf_Length := 4 |}).1 (Some 5734) 1700000000
      "u1" ∅ = Ret ((otp, None), c1) /\
    (1700000601 <= 1700000601 <= 1700000000 + 600 ->
     ValidateOTP (NewService {| conf_Length := 4 |}).1 1700000601 "u1" otp
       (CacheInstance.RemoveExpiredEntries 1700000601 c1)
       = Ret ((true, None),
              delete "u1" (CacheInstance.RemoveExpiredEntries 1700000601 c1)))
    /\
    (1700000000 + 600 < 1700000601 ->
     ValidateOTP (NewService {| conf_Length := 4 |}).1 1700000601 "u1" otp c1
       = Ret ((false, Some (ErrNotFound "u1")), c1) /\
     is_Some (c1 !! "u1") /\
     CacheInstance.RemoveExpiredEntries 1700000601 c1 !! "u1" = None).
Proof.
  apply (GenerateOTP_lifetime (NewService {| conf_Length := 4 |}).1
           5734 1700000000 1700000601 1700000601 "u1" ∅).
  - simpl. lia.
  - discriminate.
Defined.

End ServiceFlows.

Section ValidateMore.
Implicit Types (o : otpServiceInstance) (c : gmap string CacheEntry).
Implicit Types (key otp : string) (now : Z).

(** [ValidateOTP] says yes only to the OTP that is cached. Whenever it
    returns, the boolean is [true] exactly when the error is nil; a [true]
    means that the submitted OTP is not empty, has the configured length
    and is the string of a live entry under the key, which the call
    deleted; a [false] means that the store was left as it was. *)
Theorem ValidateOTP_true_only_if_cached o now key otp c
    (ok : bool) (err : option error) (c' : gmap string CacheEntry) :
  ValidateOTP o now key otp c = Ret ((ok, err), c') ->
  (ok = true <-> err = None) /\
  (ok = true ->
   otp <> "" /\ len otp = Length o /\ c' = delete key c /\
   exists expiry,
     c !! key = Some {| Data := AnyString otp; Expiry := expiry |} /\
     now <= expiry) /\
  (ok = false -> c' = c).
Proof.
  rewrite ValidateOTP_cases.
  destruct (String.eqb otp "") eqn:Hempty; cbn [orb];
    [intros [= <- <- <-]; by repeat split|].
  destruct (Z.eqb_spec (len otp) (Length o)) as [Hlen|Hlen]; cbn [negb];
    [|intros [= <- <- <-]; by repeat split].
  destruct (c !! key) as [[data expiry]|] eqn:Hk;
    [|intros [= <- <- <-]; by repeat split].
  destruct (IsExpired {| Data := data; Expiry := expiry |} now) eqn:He;
    [intros [= <- <- <-]; by repeat split|].
  cbn [Data]. destruct data as [|cached|tag];
    [intros [= <- <- <-]; by repeat split| |discriminate].
  destruct (String.eqb_spec cached otp) as [->|Hne];
    [|intros [= <- <- <-]; by repeat split].
  intros [= <- <- <-]. split; [done|]. split; [|done]. intros _.
  apply String.eqb_neq in Hempty. apply IsExpired_false in He.
  repeat split; try done. by exists expiry.
Qed.

Lemma ValidateOTP_true_only_if_cached_witness :
  let c : gmap string CacheEntry :=
    <["u1" := {| Data := AnyString "0734"; Expiry := 1700000600 |}]> ∅ in
  (true = true <-> (None : option error) = None) /\
  (true = true ->
   "0734" <> "" /\
   len "0734" = Length (NewService {| conf_Length := 4 |}).1 /\
   delete "u1" c = delete "u1" c /\
   exists expiry,
     c !! "u1" = Some {| Data := AnyString "0734"; Expiry := expiry |} /\
     1700000010 <= expiry) /\
  (true = false -> delete "u1" c = c).
Proof.
  intros c.
  apply (ValidateOTP_true_only_if_cached
           (NewService {| conf_Length := 4 |}).1 1700000010 "u1" "0734" c
           true None (delete "u1" c)).
  vm_compute. reflexivity.
Defined.

(** A live entry whose value is nil is answered with the mismatch error,
    not with a panic, for every OTP of the configured length, and is left
    in the store. *)
Theorem ValidateOTP_nil_value_mismatch o now key otp c (expiry : Z) :
  1 <= Length o -> len otp = Length o ->
  c !! key = Some {| Data := AnyNil; Expiry := expiry |} ->
  now <= expiry ->
  ValidateOTP o now key otp c = Ret ((false, Some (ErrMismatch key)), c).
Proof.
  intros Hl Hlen Hk Hlive.
  rewrite ValidateOTP_cases, format_ok, Hk by done.
  assert (IsExpired {| Data := AnyNil; Expiry := expiry |} now = false) as ->
    by (by apply IsExpired_false).
  done.
Qed.

Lemma ValidateOTP_nil_value_mismatch_witness :
  ValidateOTP (NewService {| conf_Length := 4 |}).1 1700000010 "u1" "0734"
    (<["u1" := {| Data := AnyNil; Expiry := 1700000600 |}]> ∅)
  = Ret ((false, Some (ErrMismatch "u1")),
         <["u1" := {| Data := AnyNil; Expiry := 1700000600 |}]> ∅).
Proof.
  apply (ValidateOTP_nil_value_mismatch
           (NewService {| conf_Length := 4 |}).1 1700000010 "u1" "0734"
           (<["u1" := {| Data := AnyNil; Expiry := 1700000600 |}]> ∅)
           1700000600).
  - simpl. lia.
  - reflexivity.
  - reflexivity.
  - lia.
Defined.

(** The service works on the entry of the key it is called with and on no
    other: whatever [GenerateOTP] and [ValidateOTP] return, the entries
    under every other key are as before. *)
Theorem service_calls_frame o (reader : option Z) now key otp c
    (other : string) :
  other <> key ->
  (forall res c', GenerateOTP o reader now key c = Ret (res, c') ->
     c' !! other = c !! other) /\
  (forall res c', ValidateOTP o now key otp c = Ret (res, c') ->
     c' !! other = c !! other).
Proof.
  intros Hother. split; intros res c'.
  - unfold GenerateOTP.
    destruct (rand_Int reader _) as [[n|err]|msg]; [| |discriminate].
    + unfold mbind, M_bind, call, mret, M_ret. cbn [Set_ CacheInstance_Cache].
      unfold CacheInstance.Set_.
      destruct (decide (key = "")); intros [= <- <-]; [done|].
      by apply lookup_insert_ne.
    + by intros [= <- <-].
  - rewrite ValidateOTP_cases.
    destruct (String.eqb otp "" || negb (len otp =? Length o));
      [by intros [= <- <-]|].
    destruct (c !! key) as [entry|]; [|by intros [= <- <-]].
    destruct (IsExpired entry now); [by intros [= <- <-]|].
    destruct (Data entry) as [|cached|tag];
      [by intros [= <- <-]| |discriminate].
    destruct (String.eqb cached otp); intros [= <- <-]; [|done].
    by apply lookup_delete_ne.
Qed.

Lemma service_calls_frame_witness :
  let c : gmap string CacheEntry :=
    <["u1" := {| Data := AnyString "0734"; Expiry := 1700000600 |}]>
      (<["u2" := {| Data := AnyString "1234"; Expiry := 1700000600 |}]> ∅) in
  (forall res c',
     GenerateOTP (NewService {| conf_Length := 4 |}).1 (Some 7) 1700000010
       "u1" c = Ret (res, c') ->
     c' !! "u2" = c !! "u2") /\
  (forall res c',
     ValidateOTP (NewService {| conf_Length := 4 |}).1 1700000010 "u1" "0734"
       c = Ret (res, c') ->
     c' !! "u2" = c !! "u2").
Proof.
  intros c.
  apply (service_calls_frame (NewService {| conf_Length := 4 |}).1 (Some 7)
           1700000010 "u1" "0734" c "u2").
  discriminate.
Defined.

End ValidateMore.

(** ** Runs of calls on the service *)

Section ServiceRuns.
Implicit Types (o : otpServiceInstance) (c : gmap string CacheEntry).

Lemma otp_store_delete (length : Z) (key : string) c :
  otp_store length c -> otp_store length (delete key c).
Proof.
  intros Hc k entry Hk. apply lookup_delete_Some in Hk as [_ Hk]. eauto.
Qed.

Lemma run_call_otp_store o (call : service_call) c :
  1 <= Length o <= 18 -> otp_store (Length o) c ->
  exists c', run_call o call c = Ret c' /\ otp_store (Length o) c'.
Proof.
  intros Hl Hc. destruct call as [reader now key|now key otp|now];
    cbn [run_call].
  - rewrite GenerateOTP_cases by done.
    destruct reader as [x|]; [|by eauto]. cbv zeta.
    destruct (decide (key = "")) as [|Hkey]; [by eauto|].
    eexists. split; [reflexivity|].
    pose proof (drawn_number_range (Length o) x Hl) as Hr.
    destruct (Sprintf_in_range (Length o) _ ltac:(lia) Hr)
      as (_ & Hlen & Hdig & _).
    intros k entry Hk. destruct (decide (k = key)) as [->|Hne].
    + rewrite lookup_insert_eq in Hk. injection Hk as <-.
      split; [exact Hkey|]. eauto.
    + rewrite lookup_insert_ne in Hk by done. eauto.
  - rewrite ValidateOTP_cases.
    destruct (String.eqb otp "" || negb (len otp =? Length o)); [by eauto|].
    destruct (c !! key) as [entry|] eqn:Hk; [|by eauto].
    destruct (IsExpired entry now); [by eauto|].
    destruct (Hc key entry Hk) as (_ & cached & -> & _).
    destruct (String.eqb cached otp); [|by eauto].
    eexists. split; [reflexivity|]. by apply otp_store_delete.
  - eexists. split; [reflexivity|].
    intros k entry Hk. rewrite RemoveExpiredEntries_lookup in Hk.
    destruct (c !! k) as [e|] eqn:Hck; [|discriminate].
    destruct (IsExpired e now); [discriminate|].
    injection Hk as <-. eauto.
Qed.

(** A service with a length from 1 to 18 never panics on a cache of its
    own: whatever calls of [GenerateOTP] and [ValidateOTP] and whatever
    sweeps follow one another, with whatever keys, OTPs, times and reader
    results, every call returns, and the store holds only strings of
    exactly the configured number of digits, none under the empty key. *)
Theorem run_calls_never_panic o (calls : list service_call) c :
  1 <= Length o <= 18 -> otp_store (Length o) c ->
  exists c', run_calls o calls c = Ret c' /\ otp_store (Length o) c'.
Proof.
  intros Hl. revert c.
  induction calls as [|call calls IH]; intros c Hc; cbn [run_calls].
  - eauto.
  - destruct (run_call_otp_store o call c Hl Hc) as (c1 & -> & Hc1).
    by apply IH.
Qed.

Lemma run_calls_never_panic_witness :
  exists c',
    run_calls (NewService {| conf_Length := 4 |}).1
      [CallGenerateOTP (Some 5734) 1700000000 "u1";
       CallValidateOTP 1700000010 "u1" "0000";
       CallGenerateOTP None 1700000020 "u2";
       CallGenerateOTP (Some 1) 1700000030 "";
       CallRemoveExpiredEntries 1700000700;
       CallValidateOTP 1700000710 "u1" "6734"]
      CacheInstance.empty = Ret c' /\
    otp_store (Length (NewService {| conf_Length := 4 |}).1) c'.
Proof.
  apply (run_calls_never_panic (NewService {| conf_Length := 4 |}).1).
  - simpl. lia.
  - intros k e He. unfold CacheInstance.empty in He.
    rewrite lookup_empty in He. discriminate.
Defined.

End ServiceRuns.

(** ** What the service asks of its cache *)

Section ServiceProtocol.
Context {S : Type} `{Cache S}.
Implicit Types (o : otpServiceInstance) (r : Recorded S).

(** Whatever cache is behind it, the service makes few calls on it.
    [GenerateOTP] makes at most one, a [Set]. [ValidateOTP] makes none, or
    one [Get], or one [Get] followed by one [Delete], and the [Delete] only
    when it returns [true]; neither ever calls [Exists], [Clear] or
    [RemoveExpiredEntries]. *)
Theorem service_calls_on_cache o (reader : option Z) (now : Z)
    (key otp : string) r :
  (forall res r', GenerateOTP o reader now key r = Ret (res, r') ->
     calls r' = calls r \/ calls r' = "Set" :: calls r) /\
  (forall ok err r', ValidateOTP o now key otp r = Ret ((ok, err), r') ->
     (ok = false /\ (calls r' = calls r \/ calls r' = "Get" :: calls r)) \/
     (ok = true /\ calls r' = "Delete" :: "Get" :: calls r)).
Proof.
  split.
  - intros res r'. unfold GenerateOTP.
    destruct (rand_Int reader _) as [[n|err]|msg]; [| |discriminate].
    + unfold mbind, M_bind, call, mret, M_ret.
      cbn [Set_ Recorded_Cache].
      destruct (Set_ key _ (now + 600) (served_by r)) as [[err|] s];
        intros [= <- <-]; by right.
    + intros [= <- <-]. by left.
  - intros ok err r'. unfold ValidateOTP.
    destruct (String.eqb otp "" || negb (len otp =? Length o)).
    { intros [= <- <- <-]. left. split; [done|]. by left. }
    unfold mbind, M_bind, call, call_, mret, M_ret, panic.
    cbn [Get Delete Recorded_Cache].
    destruct (Get now key (served_by r)) as [[cachedOTP found] s].
    destruct found; cbn [negb].
    + destruct cachedOTP as [|cached|tag]; [| |discriminate].
      * intros [= <- <- <-]. left. split; [done|]. by right.
      * destruct (String.eqb cached otp); cbn [negb];
          intros [= <- <- <-]; [right; by split|].
        left. split; [done|]. by right.
    + intros [= <- <- <-]. left. split; [done|]. by right.
Qed.

End ServiceProtocol.

Lemma service_calls_on_cache_witness :
  let r : Recorded (gmap string CacheEntry) :=
    mkRecorded
      (<["u1" := {| Data := AnyString "0734"; Expiry := 1700000600 |}]> ∅)
      [] in
  (forall res r',
     GenerateOTP (NewService {| conf_Length := 4 |}).1 (Some 7) 1700000010
       "u1" r = Ret (res, r') ->
     calls r' = calls r \/ calls r' = "Set" :: calls r) /\
  (forall ok err r',
     ValidateOTP (NewService {| conf_Length := 4 |}).1 1700000010 "u1"
       "0734" r = Ret ((ok, err), r') ->
     (ok = false /\ (calls r' = calls r \/ calls r' = "Get" :: calls r)) \/
     (ok = true /\ calls r' = "Delete" :: "Get" :: calls r)).
Proof.
  intros r.
  apply (service_calls_on_cache (NewService {| conf_Length := 4 |}).1
           (Some 7) 1700000010 "u1" "0734" r).
Defined.

(** Closes the cases of the error table below. *)
Ltac error_cause :=
  cbn [fst snd] in *; repeat split; intros; try done;
  try (intuition (congruence || discriminate)).

(** The error of [ValidateOTP] tells the cause. It is [ErrInvalidOTP]
    exactly when the OTP is empty or not of the configured length; the
    not-found error exactly when the format is right and [Get] does not
    find the key; the mismatch error exactly when the format is right and
    [Get] finds a value that is not the submitted string. The key named in
    the error is the key of the call. *)
Theorem ValidateOTP_error_tells_cause (o : otpServiceInstance) (now : Z)
    (key otp : string) (c : gmap string CacheEntry)
    (ok : bool) (err : option error) (c' : gmap string CacheEntry) :
  ValidateOTP o now key otp c = Ret ((ok, err), c') ->
  (err = Some ErrInvalidOTP <-> otp = "" \/ len otp <> Length o) /\
  (forall k, err = Some (ErrNotFound k) <->
     k = key /\ otp <> "" /\ len otp = Length o /\
     (CacheInstance.Get now key c).1.2 = false) /\
  (forall k, err = Some (ErrMismatch k) <->
     k = key /\ otp <> "" /\ len otp = Length o /\
     (CacheInstance.Get now key c).1.2 = true /\
     (CacheInstance.Get now key c).1.1 <> AnyString otp) /\
  (err = None \/ err = Some ErrInvalidOTP \/
   err = Some (ErrNotFound key) \/ err = Some (ErrMismatch key)).
Proof.
  rewrite ValidateOTP_cases, Get_lookup.
  destruct (String.eqb_spec otp "") as [->|Hne]; cbn [orb].
  { intros [= <- <- <-]. error_cause. }
  destruct (Z.eqb_spec (len otp) (Length o)) as [Hlen|Hlen]; cbn [negb].
  2: { intros [= <- <- <-]. error_cause. }
  destruct (c !! key) as [[data expiry]|].
  2: { intros [= <- <- <-]. error_cause. }
  destruct (IsExpired {| Data := data; Expiry := expiry |} now).
  { intros [= <- <- <-]. error_cause. }
  cbn [Data fst snd]. destruct data as [|cached|tag]; [| |discriminate].
  { intros [= <- <- <-]. error_cause. }
  destruct (String.eqb_spec cached otp) as [->|Hdiff];
    intros [= <- <- <-]; error_cause.
Qed.

Lemma ValidateOTP_error_tells_cause_witness :
  let c : gmap string CacheEntry :=
    <["u1" := {| Data := AnyString "0734"; Expiry := 1700000600 |}]> ∅ in
  let o := (NewService {| conf_Length := 4 |}).1 in
  let err := Some (ErrMismatch "u1") in
  (err = Some ErrInvalidOTP <-> "0735" = "" \/ len "0735" <> Length o) /\
  (forall k, err = Some (ErrNotFound k) <->
     k = "u1" /\ "0735" <> "" /\ len "0735" = Length o /\
     (CacheInstance.Get 1700000010 "u1" c).1.2 = false) /\
  (forall k, err = Some (ErrMismatch k) <->
     k = "u1" /\ "0735" <> "" /\ len "0735" = Length o /\
     (CacheInstance.Get 1700000010 "u1" c).1.2 = true /\
     (CacheInstance.Get 1700000010 "u1" c).1.1 <> AnyString "0735") /\
  (err = None \/ err = Some ErrInvalidOTP \/
   err = Some (ErrNotFound "u1") \/ err = Some (ErrMismatch "u1")).
Proof.
  intros c o err.
  apply (ValidateOTP_error_tells_cause o 1700000010 "u1" "0735" c false
           err c).
  vm_compute. reflexivity.
Defined.
